(** * create-next-app: the scaffolding pipeline of [create-app.ts]

    A shallow embedding of [createApp] (packages/create-next-app/create-app.ts)
    and of the retry wrapper it calls, followed by the properties of the
    pipeline: retry bound, stage order, normalisation of the fetched example,
    and the gating of dependency installation.

    The program is a straight-line asynchronous procedure that talks to
    collaborators (network, file system, package manager, git).  It is
    embedded as a state-and-exit monad over a [World]; every collaborator
    call is recorded in the world's [trace], so that "before", "never" and
    "exactly n times" are statements about that trace. *)

From Stdlib Require Import String List ZArith Lia.
From stdpp Require Import base option list sorting gmap strings.

Open Scope string_scope.
Open Scope list_scope.
Open Scope nat_scope.

(** ** Data model *)

(** [PackageManager] of helpers/get-pkg-manager. *)
Inductive PackageManager := npm | yarn | pnpm.

(** [TemplateMode] and [TemplateType] of ./templates; [tpl_app] and
    [tpl_default] are the types ['app'] and ['default']. *)
Inductive TemplateMode := ts | js.
Inductive TemplateType := tpl_app | tpl_default.

#[global] Instance PackageManager_eq_dec : EqDecision PackageManager.
Proof. solve_decision. Defined.
#[global] Instance TemplateMode_eq_dec : EqDecision TemplateMode.
Proof. solve_decision. Defined.
#[global] Instance TemplateType_eq_dec : EqDecision TemplateType.
Proof. solve_decision. Defined.

(** Modelled from the spec: the [RepoInfo] type is declared in
    helpers/examples; the pipeline only passes it along.  Fields as in the
    spec's RepoReference. *)
Record RepoInfo := mkRepoInfo {
  owner : string;
  name : string;
  branch : string;
  filePath : string
}.

(** The parts of a WHATWG [URL] object that the pipeline reads. *)
Record URL := mkURL {
  origin : string;
  pathname : string
}.

#[global] Instance RepoInfo_eq_dec : EqDecision RepoInfo.
Proof. solve_decision. Defined.
#[global] Instance URL_eq_dec : EqDecision URL.
Proof. solve_decision. Defined.

(** The argument object of [createApp] (lines 31-45).  [example] and
    [examplePath] are optional strings. *)
Record Request := mkRequest {
  appPath : string;
  packageManager : PackageManager;
  example : option string;
  examplePath : option string;
  typescript : bool;
  experimentalApp : bool
}.

(** A property key: a string, or a symbol told apart by a number. *)
Abbreviation PropertyKey := (string + nat)%type.

(** Values that a rejected promise or a [throw] can carry, told apart by
    what the program and the retry package read of them: their
    truthiness, their [bail] and [message] properties and their coercion
    [value + ''], which is the last argument of each constructor.
    - [ErrorLike m s]: an object whose [message] is the string [m], without
      a truthy [bail];
    - [OtherValue s]: any other truthy value without a [message] property
      and without a truthy [bail];
    - [Keyed key s]: a truthy value without a truthy [bail] for which
      [isErrorLike] fails although its [message] is defined (a number, say);
      [key] is the property key that this [message] converts to;
    - [Bailing message s]: a value with a truthy [bail] property; [message]
      is its message when [isErrorLike] holds of it;
    - [Falsy s]: one of [0], [NaN], [''] and [false];
    - [JsNull] and [JsUndefined], on which every property read throws;
    - [DownloadError m]: an instance of the class declared on line 29.
    Values whose property reads or whose coercion to a string throw (a
    symbol, an object without [toString]) are left out. *)
Inductive Thrown :=
| ErrorLike (message : string) (asString : string)
| OtherValue (asString : string)
| DownloadError (message : string)
| Keyed (key : PropertyKey) (asString : string)
| Bailing (message : option string) (asString : string)
| Falsy (asString : string)
| JsNull
| JsUndefined.

#[global] Instance Thrown_eq_dec : EqDecision Thrown.
Proof. solve_decision. Defined.

(** [isErrorLike] (lines 170-176). *)
Definition isErrorLike (err : Thrown) : bool :=
  match err with
  | ErrorLike _ _ | DownloadError _ | Bailing (Some _) _ => true
  | _ => false
  end.

(** [reason.message], read on a value for which [isErrorLike] holds. *)
Definition message_of (err : Thrown) : option string :=
  match err with
  | ErrorLike m _ | DownloadError m | Bailing (Some m) _ => Some m
  | _ => None
  end.

(** [reason + ''].  [DownloadError] inherits [Error.prototype.toString]. *)
Definition coerce (err : Thrown) : string :=
  match err with
  | ErrorLike _ s | OtherValue s | Keyed _ s | Bailing _ s | Falsy s => s
  | DownloadError m =>
      if decide (m = EmptyString) then "Error" else "Error: " +:+ m
  | JsNull => "null"
  | JsUndefined => "undefined"
  end.

(** [!err], [err.bail] and whether reading a property of [err] throws. *)
Definition isTruthy (err : Thrown) : bool :=
  match err with
  | Falsy _ | JsNull | JsUndefined => false
  | _ => true
  end.

Definition hasBail (err : Thrown) : bool :=
  match err with
  | Bailing _ _ => true
  | _ => false
  end.

Definition isNullish (err : Thrown) : bool :=
  match err with
  | JsNull | JsUndefined => true
  | _ => false
  end.

(** The failures after which the retry package tries again, if a retry is
    left: truthy values without a truthy [bail]. *)
Definition retriable (err : Thrown) : bool :=
  isTruthy err && negb (hasBail err).

(** The message handed to [new DownloadError(...)] on lines 177-179:
    [isErrorLike(reason) ? reason.message : reason + '']. *)
Definition downloadMessage (reason : Thrown) : string :=
  if isErrorLike reason then default EmptyString (message_of reason)
  else coerce reason.

(** ** Collaborator calls and console output *)

Inductive Event :=
| EvGetRepoInfo (url : URL) (examplePath : option string)
| EvHasRepo (info : RepoInfo)
| EvExistsInRepo (example : string)
| EvIsWriteable (dir : string)
| EvMakeDir (root : string)
| EvIsFolderEmpty (root appName : string)
| EvGetOnline
| EvChdir (root : string)
| EvDownloadRepo (root : string) (info : RepoInfo)
| EvDownloadExample (root example : string)
| EvExistsSync (path : string)
| EvCopyFile (src dst : string)
| EvInstall (root : string) (pm : PackageManager) (isOnline : bool)
| EvInstallTemplate (appName root : string) (template : TemplateType)
    (mode : TemplateMode) (pm : PackageManager) (isOnline : bool)
| EvGitInit (root : string).

#[global] Instance Event_eq_dec : EqDecision Event.
Proof. solve_decision. Defined.

(** Which message is printed; the wording is left out. *)
Inductive Message :=
| MsgParseError (code : string)
| MsgInvalidURL (example : string)
| MsgInvalidGitHubURL (example : string)
| MsgRepoNotFound (example : string)
| MsgExampleNotFound (example : string)
| MsgNotWritable
| MsgNoWritePermission
| MsgCreating (root : string)
| MsgDownloadingRepo (example : string)
| MsgDownloadingExample (example : string)
| MsgInstalling
| MsgGitInitialized
| MsgSuccess (appName appPath : string)
| MsgRunInstructions (pm : PackageManager) (useYarn : bool) (cdpath : string)
| MsgBlank.

(** The file system maps a path to the content of the file stored there. *)
Abbreviation Fs := (gmap string string).

Record World := mkWorld {
  fs : Fs;
  cwd : string;
  transportCalls : nat;
  trace : list Event;
  console : list Message
}.

(** The collaborators of section 6 of the specification, as oracles.  The
    ones that read or write the disk take the file system; the two fetch
    functions also take the number of transport calls made so far, so that
    an oracle can fail on some attempts and succeed on others.  A result
    [Some err] is a rejection with [err]. *)
Module Collab.
Record t := mk {
    newURL : string → URL + string;
    getRepoInfo : URL → option string → option RepoInfo;
    hasRepo : RepoInfo → bool;
    existsInRepo : string → bool;
    path_resolve : string → string → string;
    path_dirname : string → string;
    path_basename : string → string;
    isWriteable : string → Fs → bool;
    makeDir : string → Fs → Fs;
    isFolderEmpty : string → string → Fs → bool;
    getOnline : bool;
    downloadAndExtractRepo : nat → string → RepoInfo → Fs → Fs * option Thrown;
    downloadAndExtractExample : nat → string → string → Fs → Fs * option Thrown;
    getTemplateFile : TemplateType → TemplateMode → string → string;
    install : string → PackageManager → bool → Fs → Fs * option Thrown;
    installTemplate : string → string → TemplateType → TemplateMode →
                      PackageManager → bool → Fs → Fs * option Thrown;
    tryGitInit : string → Fs → Fs * bool
}.
End Collab.

(** ** The monad: state, [process.exit] and exceptions *)

(** How an asynchronous computation ends: it returns, it leaves through
    [process.exit], it throws (its promise is rejected), or its promise
    never settles. *)
Inductive Outcome (A : Type) :=
| Ret (a : A)
| Exit (code : Z)
| Throw (reason : Thrown)
| Pending.
Arguments Ret {A} a.
Arguments Exit {A} code.
Arguments Throw {A} reason.
Arguments Pending {A}.

Definition M (A : Type) : Type := World → Outcome A * World.

Definition ret {A} (a : A) : M A := λ w, (Ret a, w).

Definition bind {A B} (m : M A) (f : A → M B) : M B := λ w,
  match m w with
  | (Ret a, w') => f a w'
  | (Exit c, w') => (Exit c, w')
  | (Throw r, w') => (Throw r, w')
  | (Pending, w') => (Pending, w')
  end.

Declare Scope js_scope.
Delimit Scope js_scope with js.
Notation "'let!' x ':=' m 'in' k" := (bind m (λ x, k))
  (at level 10, x name, m at level 100, k at level 200) : js_scope.
Notation "m '>>' k" := (bind m (λ _, k))
  (at level 90, right associativity) : js_scope.
Open Scope js_scope.

(** [process.exit(code)]: nothing after it runs and no handler catches it. *)
Definition process_exit {A} (code : Z) : M A := λ w, (Exit code, w).

Definition throw {A} (reason : Thrown) : M A := λ w, (Throw reason, w).

(** [try { body } catch (reason) { handler }]. *)
Definition tryCatch {A} (body : M A) (handler : Thrown → M A) : M A := λ w,
  match body w with
  | (Throw r, w') => handler r w'
  | other => other
  end.

(** [if (c) { m }] followed by the rest of the block. *)
Definition when (c : bool) (m : M unit) : M unit := if c then m else ret tt.

Definition emit (ev : Event) : M unit := λ w,
  (Ret tt,
   mkWorld (fs w) (cwd w) (transportCalls w) (trace w ++ [ev]) (console w)).

Definition print (msg : Message) : M unit := λ w,
  (Ret tt,
   mkWorld (fs w) (cwd w) (transportCalls w) (trace w) (console w ++ [msg])).

Definition getFs : M Fs := λ w, (Ret (fs w), w).

Definition putFs (fs' : Fs) : M unit := λ w,
  (Ret tt, mkWorld fs' (cwd w) (transportCalls w) (trace w) (console w)).

Definition process_cwd : M string := λ w, (Ret (cwd w), w).

Definition setCwd (dir : string) : M unit := λ w,
  (Ret tt, mkWorld (fs w) dir (transportCalls w) (trace w) (console w)).

(** The index of the next transport call; the counter is bumped. *)
Definition nextTransportCall : M nat := λ w,
  (Ret (transportCalls w),
   mkWorld (fs w) (cwd w) (S (transportCalls w)) (trace w) (console w)).

(** A rejected promise, or a fulfilled one. *)
Definition settle (r : option Thrown) : M unit :=
  match r with
  | Some err => throw err
  | None => ret tt
  end.

(** [path.join(dir, file)] of POSIX for a normalised absolute directory,
    as [path.resolve] and [process.cwd] give, and a single segment, a file
    name or a base name: an empty segment is skipped, and the root
    directory brings its own separator. *)
Definition path_join (dir file : string) : string :=
  if decide (file = EmptyString) then dir
  else if decide (dir = "/") then "/" +:+ file
  else dir +:+ "/" +:+ file.

(** JavaScript truthiness of an optional string: [undefined] and the empty
    string are falsy.  [ifExample] is [if (example) { ... } else { ... }]. *)
Definition truthy (example : option string) : bool :=
  match example with
  | Some s => bool_decide (s ≠ EmptyString)
  | None => false
  end.

Definition ifExample {A} (example : option string)
    (thenBranch : string → M A) (elseBranch : M A) : M A :=
  match example with
  | Some s => if truthy (Some s) then thenBranch s else elseBranch
  | None => elseBranch
  end.

(** ** Primitive operations *)

Section Pipeline.

Context (env : Collab.t).

(** Read-only network checks of helpers/examples. *)
Definition getRepoInfo (url : URL) (examplePath : option string)
    : M (option RepoInfo) :=
  emit (EvGetRepoInfo url examplePath) >>
  ret (Collab.getRepoInfo env url examplePath).

Definition hasRepo (info : RepoInfo) : M bool :=
  emit (EvHasRepo info) >> ret (Collab.hasRepo env info).

Definition existsInRepo (example : string) : M bool :=
  emit (EvExistsInRepo example) >> ret (Collab.existsInRepo env example).

(** Directory helpers. *)
Definition isWriteable (dir : string) : M bool :=
  emit (EvIsWriteable dir) >>
  let! disk := getFs in
  ret (Collab.isWriteable env dir disk).

Definition makeDir (root : string) : M unit :=
  emit (EvMakeDir root) >>
  let! disk := getFs in
  putFs (Collab.makeDir env root disk).

Definition isFolderEmpty (root appName : string) : M bool :=
  emit (EvIsFolderEmpty root appName) >>
  let! disk := getFs in
  ret (Collab.isFolderEmpty env root appName disk).

Definition getOnline : M bool :=
  emit EvGetOnline >> ret (Collab.getOnline env).

Definition process_chdir (root : string) : M unit :=
  emit (EvChdir root) >> setCwd root.

(** The two fetch functions: one transport call each. *)
Definition downloadAndExtractRepo (root : string) (info : RepoInfo) : M unit :=
  emit (EvDownloadRepo root info) >>
  let! n := nextTransportCall in
  let! disk := getFs in
  let '(disk', r) := Collab.downloadAndExtractRepo env n root info disk in
  putFs disk' >> settle r.

Definition downloadAndExtractExample (root example : string) : M unit :=
  emit (EvDownloadExample root example) >>
  let! n := nextTransportCall in
  let! disk := getFs in
  let '(disk', r) := Collab.downloadAndExtractExample env n root example disk in
  putFs disk' >> settle r.

(** [fs.existsSync(path)]. *)
Definition existsSync (path : string) : M bool :=
  emit (EvExistsSync path) >>
  let! disk := getFs in
  ret (bool_decide (is_Some (disk !! path))).

(** The error of a copy whose source does not exist. *)
Definition enoent (src dst : string) : Thrown :=
  let text :=
    "ENOENT: no such file or directory, copyfile '" +:+ src +:+ "' -> '"
      +:+ dst +:+ "'" in
  ErrorLike text ("Error: " +:+ text).

(** [fs.copyFileSync(src, dst)] with the default mode: the destination is
    created or overwritten; a missing source throws. *)
Definition copyFileSync (src dst : string) : M unit :=
  emit (EvCopyFile src dst) >>
  let! disk := getFs in
  match disk !! src with
  | Some content => putFs (<[dst := content]> disk)
  | None => throw (enoent src dst)
  end.

Definition install (root : string) (pm : PackageManager) (isOnline : bool)
    : M unit :=
  emit (EvInstall root pm isOnline) >>
  let! disk := getFs in
  let '(disk', r) := Collab.install env root pm isOnline disk in
  putFs disk' >> settle r.

Definition installTemplate (appName root : string) (template : TemplateType)
    (mode : TemplateMode) (pm : PackageManager) (isOnline : bool) : M unit :=
  emit (EvInstallTemplate appName root template mode pm isOnline) >>
  let! disk := getFs in
  let '(disk', r) :=
    Collab.installTemplate env appName root template mode pm isOnline disk in
  putFs disk' >> settle r.

(** [tryGitInit] never throws; it answers whether a repository was made. *)
Definition tryGitInit (root : string) : M bool :=
  emit (EvGitInit root) >>
  let! disk := getFs in
  let '(disk', ok) := Collab.tryGitInit env root disk in
  putFs disk' >> ret ok.

(** ** The retry wrapper

    [retry] is the [async-retry] package (line 2), a thin layer over the
    [retry] package's [RetryOperation].  Option [retries] is the number of
    re-attempts after the first call: the operation keeps one time-out per
    retry and gives up when a failure finds none left.  It then rejects with
    [mainError()].  The waiting between attempts is not modelled. *)

(** The key under which [mainError] tallies an error: [error.message] as a
    property key; a missing [message] reads as [undefined]. *)
Definition messageKey (err : Thrown) : PropertyKey :=
  match err with
  | Keyed key _ => key
  | _ => inl (default "undefined" (message_of err))
  end.

(** The tallies are properties of a plain object, which inherits these
    properties from [Object.prototype]. *)
Definition objectPrototypeKeys : list string :=
  ["constructor"; "__defineGetter__"; "__defineSetter__"; "hasOwnProperty";
   "__lookupGetter__"; "__lookupSetter__"; "isPrototypeOf";
   "propertyIsEnumerable"; "toString"; "valueOf"; "__proto__";
   "toLocaleString"].

Definition inherited (key : PropertyKey) : bool :=
  match key with
  | inl name => bool_decide (name ∈ objectPrototypeKeys)
  | inr _ => false
  end.

(** The loop of [mainError]: the error whose message occurred most often,
    the latest one among equally frequent messages.  Under an inherited
    key the tally read is a function or a string, never a number:
    [(counts[message] || 0) + 1] is then a string, the comparison
    [count >= mainErrorCount] fails, and the error is passed over. *)
Fixpoint mainError_loop (errors : list Thrown) (counts : gmap PropertyKey nat)
    (mainError : option Thrown) (mainErrorCount : nat) : option Thrown :=
  match errors with
  | [] => mainError
  | error :: rest =>
      let message := messageKey error in
      if inherited message
      then mainError_loop rest counts mainError mainErrorCount
      else
        let count := default 0 (counts !! message) + 1 in
        let counts' := <[message := count]> counts in
        if mainErrorCount <=? count
        then mainError_loop rest counts' (Some error) count
        else mainError_loop rest counts' mainError mainErrorCount
  end.

(** [mainError()]; [None] is [null]. *)
Definition mainError (errors : list Thrown) : option Thrown :=
  mainError_loop errors ∅ None 0.

(** What the promise of [retry] is rejected with when the operation gives
    up: [reject(op.mainError())]. *)
Definition rejection (errors : list Thrown) : Thrown :=
  default JsNull (mainError errors).

(** One attempt and what [onError] does with its failure.  [timeouts] is
    the number of retries still allowed, [errors] the failures recorded so
    far.
    - Reading [err.bail] of [null] or [undefined] throws inside the
      handler: the promise of [retry] is never settled.
    - A truthy [err.bail] rejects with [err] at once.
    - [op.retry(err)] answers false for a falsy [err] without recording
      it, and for a truthy one, which it records, when no time-out is
      left; the promise is then rejected with [mainError()].
    - Otherwise the next attempt is made. *)
Fixpoint attempt {A} (fn : M A) (timeouts : nat) (errors : list Thrown)
    : M A := λ w,
  match fn w with
  | (Throw err, w') =>
      if isNullish err then (Pending, w')
      else if hasBail err then (Throw err, w')
      else if isTruthy err then
        let errors' := errors ++ [err] in
        match timeouts with
        | O => (Throw (rejection errors'), w')
        | S timeouts' => attempt fn timeouts' errors' w'
        end
      else (Throw (rejection errors), w')
  | settled => settled
  end.

Definition retry {A} (fn : M A) (retries : nat) : M A := attempt fn retries [].

(** ** [createApp], block by block *)

(** Lines 50-109: what [example] refers to.  The result is [repoInfo]:
    [Some] for a GitHub URL that was found, [None] for a named example.
    Every failure leaves through [process.exit(1)]. *)
Definition resolveExample (req : Request) : M (option RepoInfo) :=
  ifExample (example req)
    (λ example,
      let! repoUrl :=
        match Collab.newURL env example with
        | inl url => ret (Some url)
        | inr code =>
            when (bool_decide (code ≠ "ERR_INVALID_URL"))
              (print (MsgParseError code) >> process_exit 1) >>
            ret None
        end in
      match repoUrl with
      | Some repoUrl =>
          when (bool_decide (origin repoUrl ≠ "https://github.com"))
            (print (MsgInvalidURL example) >> process_exit 1) >>
          let! repoInfo := getRepoInfo repoUrl (examplePath req) in
          match repoInfo with
          | None => print (MsgInvalidGitHubURL example) >> process_exit 1
          | Some info =>
              let! found := hasRepo info in
              when (negb found)
                (print (MsgRepoNotFound example) >> process_exit 1) >>
              ret (Some info)
          end
      | None =>
          if bool_decide (example ≠ "__internal-testing-retry") then
            let! found := existsInRepo example in
            when (negb found)
              (print (MsgExampleNotFound example) >> process_exit 1) >>
            ret None
          else ret None
      end)
    (ret None).

(** The constants computed on lines 111-139. *)
Record Target := mkTarget {
  root : string;
  appName : string;
  isOnline : bool;
  originalDirectory : string
}.

(** Lines 111-137: the parent of the target must be writable, the target
    is created and must be empty, and the process moves into it. *)
Definition prepareDirectory (req : Request) : M Target :=
  let! here := process_cwd in
  let root := Collab.path_resolve env here (appPath req) in
  let! writable := isWriteable (Collab.path_dirname env root) in
  when (negb writable)
    (print MsgNotWritable >> print MsgNoWritePermission >> process_exit 1) >>
  let appName := Collab.path_basename env root in
  makeDir root >>
  let! empty := isFolderEmpty root appName in
  when (negb empty) (process_exit 1) >>
  let useYarn := bool_decide (packageManager req = yarn) in
  let! isOnline := (if negb useYarn then ret true else getOnline) in
  let! originalDirectory := process_cwd in
  print (MsgCreating root) >>
  print MsgBlank >>
  process_chdir root >>
  ret (mkTarget root appName isOnline originalDirectory).

(** Lines 146-180: the fetch, retried, and the handler that wraps what is
    still thrown into a [DownloadError]. *)
Definition fetchExample (root example : string) (repoInfo : option RepoInfo)
    : M unit :=
  tryCatch
    (match repoInfo with
     | Some repoInfo2 =>
         print (MsgDownloadingRepo example) >>
         print MsgBlank >>
         retry (downloadAndExtractRepo root repoInfo2) 3
     | None =>
         print (MsgDownloadingExample example) >>
         print MsgBlank >>
         retry (downloadAndExtractExample root example) 3
     end)
    (λ reason,
      throw (DownloadError (downloadMessage reason))).

(** Lines 181-188: copy [.gitignore] if the example did not provide one. *)
Definition copyGitignore (root : string) (template : TemplateType)
    (mode : TemplateMode) : M unit :=
  let ignorePath := path_join root ".gitignore" in
  let! present := existsSync ignorePath in
  when (negb present)
    (copyFileSync (Collab.getTemplateFile env template mode "gitignore")
       ignorePath).

(** Lines 190-197: copy [next-env.d.ts] into any example that is
    TypeScript. *)
Definition copyNextEnv (root : string) (template : TemplateType) : M unit :=
  let tsconfigPath := path_join root "tsconfig.json" in
  let! present := existsSync tsconfigPath in
  when present
    (copyFileSync (Collab.getTemplateFile env template ts "next-env.d.ts")
       (path_join root "next-env.d.ts")).

(** Lines 199-206: [hasPackageJson], and the installation it gates. *)
Definition installPackages (root : string) (pm : PackageManager)
    (isOnline : bool) : M bool :=
  let packageJsonPath := path_join root "package.json" in
  let! hasPackageJson := existsSync packageJsonPath in
  when hasPackageJson
    (print MsgInstalling >>
     print MsgBlank >>
     install root pm isOnline >>
     print MsgBlank) >>
  ret hasPackageJson.

(** Lines 142-220: clone the example, or install from a template.  The
    result is [hasPackageJson], which stays [false] on the template path. *)
Definition cloneOrTemplate (req : Request) (repoInfo : option RepoInfo)
    (t : Target) : M bool :=
  let mode := if typescript req then ts else js in
  let template := if experimentalApp req then tpl_app else tpl_default in
  ifExample (example req)
    (λ example,
      fetchExample (root t) example repoInfo >>
      copyGitignore (root t) template mode >>
      copyNextEnv (root t) template >>
      installPackages (root t) (packageManager req) (isOnline t))
    (installTemplate (appName t) (root t) template mode
       (packageManager req) (isOnline t) >>
     ret false).

(** Lines 222-255: git, and the report. *)
Definition initAndReport (req : Request) (t : Target) (hasPackageJson : bool)
    : M unit :=
  let useYarn := bool_decide (packageManager req = yarn) in
  let! initialized := tryGitInit (root t) in
  when initialized (print MsgGitInitialized >> print MsgBlank) >>
  let cdpath :=
    if decide (path_join (originalDirectory t) (appName t) = appPath req)
    then appName t else appPath req in
  print (MsgSuccess (appName t) (appPath req)) >>
  when hasPackageJson
    (print (MsgRunInstructions (packageManager req) useYarn cdpath)) >>
  print MsgBlank.

(** Lines 31-256. *)
Definition createApp (req : Request) : M unit :=
  let! repoInfo := resolveExample req in
  let! t := prepareDirectory req in
  let! hasPackageJson := cloneOrTemplate req repoInfo t in
  initAndReport req t hasPackageJson.

End Pipeline.

(** ** A concrete set of collaborators

    Used to run the pipeline on explicit requests.  The disk holds the
    template files; the catalog knows the examples [blog], [docs] and
    [plain]; the repository [acme/demo] exists; fetching [blog] fails twice
    before it is delivered, fetching an unknown example always fails. *)
Module Sample.

Definition templateFile (template : TemplateType) (mode : TemplateMode)
    (file : string) : string :=
  "/pkg/templates/"
    +:+ (match template with tpl_app => "app" | tpl_default => "default" end)
    +:+ "/" +:+ (match mode with ts => "ts" | js => "js" end)
    +:+ "/" +:+ file.

Definition disk : Fs :=
  <[templateFile tpl_default ts "gitignore" := "node_modules"]>
  (<[templateFile tpl_default js "gitignore" := "node_modules"]>
  (<[templateFile tpl_default ts "next-env.d.ts" := "/// next types"]> ∅)).

Definition acme : RepoInfo := mkRepoInfo "acme" "demo" "main" "examples/foo".

Definition newURL (s : string) : URL + string :=
  if decide (s = "https://github.com/acme/demo/tree/main/examples/foo")
  then inl (mkURL "https://github.com" "/acme/demo/tree/main/examples/foo")
  else if decide (s = "https://notgithub.com/x/y")
  then inl (mkURL "https://notgithub.com" "/x/y")
  else if decide (s = "http://[bad")
  then inr "ERR_OTHER"
  else inr "ERR_INVALID_URL".

(** What the catalog delivers: [blog] is a TypeScript project with a
    manifest and no [.gitignore]; [docs] is a TypeScript project with a
    [.gitignore] and no manifest; [plain] is a single script. *)
Definition blogFiles (root : string) (d : Fs) : Fs :=
  <[path_join root "package.json" := "{}"]>
  (<[path_join root "tsconfig.json" := "{}"]>
  (<[path_join root "next-env.d.ts" := "stale"]> d)).

Definition docsFiles (root : string) (d : Fs) : Fs :=
  <[path_join root ".gitignore" := "dist"]>
  (<[path_join root "tsconfig.json" := "{}"]>
  (<[path_join root "next-env.d.ts" := "stale"]> d)).

Definition plainFiles (root : string) (d : Fs) : Fs :=
  <[path_join root "index.js" := "export {}"]> d.

Definition catalogFetch (n : nat) (root example : string) (d : Fs)
    : Fs * option Thrown :=
  if decide (example = "blog") then
    if n <? 2 then (d, Some (ErrorLike "timeout" "Error: timeout"))
    else (blogFiles root d, None)
  else if decide (example = "docs") then (docsFiles root d, None)
  else if decide (example = "plain") then (plainFiles root d, None)
  else if n <? 3 then (d, Some (ErrorLike "reset" "Error: reset"))
  else (d, Some (ErrorLike "refused" "Error: refused")).

Definition env : Collab.t := {|
  Collab.newURL := newURL;
  Collab.getRepoInfo := λ url _,
    if decide (pathname url = "/acme/demo/tree/main/examples/foo")
    then Some acme else None;
  Collab.hasRepo := λ info, bool_decide (info = acme);
  Collab.existsInRepo := λ example,
    bool_decide (example = "blog" ∨ example = "docs" ∨ example = "plain");
  Collab.path_resolve := λ here p, p;
  Collab.path_dirname := λ _, "/work";
  Collab.path_basename := λ _, "my-app";
  Collab.isWriteable := λ _ _, true;
  Collab.makeDir := λ _ d, d;
  Collab.isFolderEmpty := λ _ _ _, true;
  Collab.getOnline := true;
  Collab.downloadAndExtractRepo := λ _ _ _ d,
    (d, Some (OtherValue "socket hang up"));
  Collab.downloadAndExtractExample := catalogFetch;
  Collab.getTemplateFile := templateFile;
  Collab.install := λ _ _ _ d, (d, None);
  Collab.installTemplate := λ _ _ _ _ _ _ d, (d, None);
  Collab.tryGitInit := λ _ d, (d, true)
|}.

(** The same collaborators on a disk whose directories are not writable. *)
Definition readOnly : Collab.t := {|
  Collab.newURL := Collab.newURL env;
  Collab.getRepoInfo := Collab.getRepoInfo env;
  Collab.hasRepo := Collab.hasRepo env;
  Collab.existsInRepo := Collab.existsInRepo env;
  Collab.path_resolve := Collab.path_resolve env;
  Collab.path_dirname := Collab.path_dirname env;
  Collab.path_basename := Collab.path_basename env;
  Collab.isWriteable := λ _ _, false;
  Collab.makeDir := Collab.makeDir env;
  Collab.isFolderEmpty := Collab.isFolderEmpty env;
  Collab.getOnline := Collab.getOnline env;
  Collab.downloadAndExtractRepo := Collab.downloadAndExtractRepo env;
  Collab.downloadAndExtractExample := Collab.downloadAndExtractExample env;
  Collab.getTemplateFile := Collab.getTemplateFile env;
  Collab.install := Collab.install env;
  Collab.installTemplate := Collab.installTemplate env;
  Collab.tryGitInit := Collab.tryGitInit env
|}.

Definition world : World := mkWorld disk "/work" 0 [] [].

Definition target : Target := mkTarget "/work/my-app" "my-app" true "/work".

(** The world in which the fetch of an example starts. *)
Definition prepared : World :=
  mkWorld disk "/work/my-app" 0
    [EvIsWriteable "/work"; EvMakeDir "/work/my-app";
     EvIsFolderEmpty "/work/my-app" "my-app"; EvChdir "/work/my-app"]
    [MsgCreating "/work/my-app"; MsgBlank].

Definition request (example : option string) : Request :=
  mkRequest "/work/my-app" npm example None false false.

End Sample.

(** ** Vocabulary of the properties *)

(** [produces m Q]: from any world, [m] only appends to the trace, and the
    events it appends satisfy [Q]. *)
Definition produces {A} (m : M A) (Q : list Event → Prop) : Prop :=
  ∀ w, ∃ evs, trace (m w).2 = trace w ++ evs ∧ Q evs.

(** The states of the orchestrator (section 4.4 of the specification), and
    the state to which each collaborator call belongs. *)
Inductive Stage :=
| Resolving
| Validating
| PreparingDirectory
| FetchingOrMaterializing
| Normalizing
| Installing
| InitVersionControl.

Definition stageOf (ev : Event) : Stage :=
  match ev with
  | EvGetRepoInfo _ _ | EvHasRepo _ | EvExistsInRepo _ => Resolving
  | EvIsWriteable _ => Validating
  | EvMakeDir _ | EvIsFolderEmpty _ _ | EvGetOnline | EvChdir _ =>
      PreparingDirectory
  | EvDownloadRepo _ _ | EvDownloadExample _ _
  | EvInstallTemplate _ _ _ _ _ _ => FetchingOrMaterializing
  | EvExistsSync _ | EvCopyFile _ _ => Normalizing
  | EvInstall _ _ _ => Installing
  | EvGitInit _ => InitVersionControl
  end.

(** The position of a stage in the order in which [createApp] runs them. *)
Definition position (s : Stage) : nat :=
  match s with
  | Resolving => 0
  | Validating => 1
  | PreparingDirectory => 2
  | FetchingOrMaterializing => 3
  | Normalizing => 4
  | Installing => 5
  | InitVersionControl => 6
  end.

(** The position of a stage in the order "validate, then resolve, then
    prepare, then fetch or materialize". *)
Definition validateFirstPosition (s : Stage) : nat :=
  match s with
  | Validating => 0
  | Resolving => 1
  | PreparingDirectory => 2
  | FetchingOrMaterializing => 3
  | Normalizing => 4
  | Installing => 5
  | InitVersionControl => 6
  end.

(** A trace runs its stages in the order given by [pos]: no call of a later
    stage comes before a call of an earlier one. *)
Definition inStageOrder (pos : Stage → nat) (evs : list Event) : Prop :=
  StronglySorted (λ a b, pos (stageOf a) ≤ pos (stageOf b)) evs.

(** Events of stages [lo] to [hi], in stage order. *)
Definition staged (lo hi : nat) (evs : list Event) : Prop :=
  inStageOrder position evs ∧
  Forall (λ ev, lo ≤ position (stageOf ev) ≤ hi) evs.


Definition isRepoCall (ev : Event) : bool :=
  match ev with
  | EvGetRepoInfo _ _ | EvHasRepo _ | EvDownloadRepo _ _ => true
  | _ => false
  end.

Definition isInstall (ev : Event) : bool :=
  match ev with
  | EvInstall _ _ _ => true
  | _ => false
  end.

Definition isMaterialize (ev : Event) : bool :=
  match ev with
  | EvInstallTemplate _ _ _ _ _ _ => true
  | _ => false
  end.

Definition isCopy (ev : Event) : bool :=
  match ev with
  | EvCopyFile _ _ => true
  | _ => false
  end.

(** A call that only the example path makes: resolution, fetch,
    normalisation, or the installation gated by the manifest. *)
Definition onExamplePath (ev : Event) : bool :=
  match ev with
  | EvGetRepoInfo _ _ | EvHasRepo _ | EvExistsInRepo _
  | EvDownloadRepo _ _ | EvDownloadExample _ _
  | EvExistsSync _ | EvCopyFile _ _ | EvInstall _ _ _ => true
  | _ => false
  end.

Definition calls (kind : Event → bool) (evs : list Event) : nat :=
  length (List.filter kind evs).



Section Vocabulary.

Context (env : Collab.t).

(** The fetch function handed to [retry], whichever strategy is taken, the
    oracle behind it and the call it leaves in the trace. *)
Definition fetchFn (root example : string) (repoInfo : option RepoInfo)
    : M unit :=
  match repoInfo with
  | Some info => downloadAndExtractRepo env root info
  | None => downloadAndExtractExample env root example
  end.

Definition fetchOracle (root example : string) (repoInfo : option RepoInfo)
    (n : nat) (disk : Fs) : Fs * option Thrown :=
  match repoInfo with
  | Some info => Collab.downloadAndExtractRepo env n root info disk
  | None => Collab.downloadAndExtractExample env n root example disk
  end.

Definition fetchEvent (root example : string) (repoInfo : option RepoInfo)
    : Event :=
  match repoInfo with
  | Some info => EvDownloadRepo root info
  | None => EvDownloadExample root example
  end.

(** The world after one transport call. *)
Definition afterFetch (root example : string) (repoInfo : option RepoInfo)
    (w : World) : World :=
  mkWorld (fetchOracle root example repoInfo (transportCalls w) (fs w)).1
    (cwd w) (S (transportCalls w))
    (trace w ++ [fetchEvent root example repoInfo]) (console w).

(** The [n]-th transport call fails with [err], or succeeds, whatever the
    disk holds. *)
Definition failsAt (root example : string) (repoInfo : option RepoInfo)
    (n : nat) (err : Thrown) : Prop :=
  ∀ disk, (fetchOracle root example repoInfo n disk).2 = Some err.

Definition succeedsAt (root example : string) (repoInfo : option RepoInfo)
    (n : nat) : Prop :=
  ∀ disk, (fetchOracle root example repoInfo n disk).2 = None.

(** The world once the download has been announced on the console
    (lines 149-154 and 159-164). *)
Definition announced (example : string) (repoInfo : option RepoInfo)
    (w : World) : World :=
  mkWorld (fs w) (cwd w) (transportCalls w) (trace w)
    (console w ++
       [match repoInfo with
        | Some _ => MsgDownloadingRepo example
        | None => MsgDownloadingExample example
        end; MsgBlank]).

Definition modeOf (req : Request) : TemplateMode :=
  if typescript req then ts else js.

Definition templateOf (req : Request) : TemplateType :=
  if experimentalApp req then tpl_app else tpl_default.

(** Lines 181-197: the two normalisation steps. *)
Definition normalize (req : Request) (t : Target) : M unit :=
  copyGitignore env (root t) (templateOf req) (modeOf req) >>
  copyNextEnv env (root t) (templateOf req).

(** The run of [createApp] on an example up to the end of normalisation. *)
Definition reachNormalized (req : Request) (example : string)
    : M (option RepoInfo * Target) :=
  let! repoInfo := resolveExample env req in
  let! t := prepareDirectory env req in
  fetchExample env (root t) example repoInfo >>
  normalize req t >>
  ret (repoInfo, t).

(** The request with another [example] field. *)
Definition withExample (req : Request) (example : option string) : Request :=
  mkRequest (appPath req) (packageManager req) example (examplePath req)
    (typescript req) (experimentalApp req).

End Vocabulary.


(** ** Further vocabulary: console, exit codes, the report *)

(** [behaves P Q E m]: from any world, [m] only appends to the trace and to
    the console, the calls it appends satisfy [P], the messages [Q], and
    if it leaves through [process.exit] the code satisfies [E]. *)
Definition behaves {A} (P : Event → Prop) (Q : Message → Prop)
    (E : Z → Prop) (m : M A) : Prop :=
  ∀ w,
    (∃ evs, trace (m w).2 = trace w ++ evs ∧ Forall P evs) ∧
    (∃ msgs, console (m w).2 = console w ++ msgs ∧ Forall Q msgs) ∧
    (∀ code, (m w).1 = Exit code → E code).

Definition isSuccess (msg : Message) : bool :=
  match msg with
  | MsgSuccess _ _ => true
  | _ => false
  end.

Definition isInstructions (msg : Message) : bool :=
  match msg with
  | MsgRunInstructions _ _ _ => true
  | _ => false
  end.

(** A call that concerns a named example of the catalog. *)
Definition isNamedCall (ev : Event) : bool :=
  match ev with
  | EvExistsInRepo _ | EvDownloadExample _ _ => true
  | _ => false
  end.

Definition said (kind : Message → bool) (msgs : list Message) : nat :=
  length (List.filter kind msgs).

(** At most one call installs dependencies, the installer or the template. *)
Definition installsAtMostOnce (evs : list Event) : Prop :=
  calls isInstall evs + calls isMaterialize evs ≤ 1.

Definition installsNothing (ev : Event) : Prop :=
  isInstall ev = false ∧ isMaterialize ev = false.

Section Report.

Context (env : Collab.t).

(** The run of [createApp] up to line 220: the target and [hasPackageJson]. *)
Definition reachReport (req : Request) : M (Target * bool) :=
  let! repoInfo := resolveExample env req in
  let! t := prepareDirectory env req in
  let! hasPackageJson := cloneOrTemplate env req repoInfo t in
  ret (t, hasPackageJson).

(** The value of [isOnline] on line 131. *)
Definition isOnlineFor (req : Request) : bool :=
  if decide (packageManager req = yarn) then Collab.getOnline env else true.

(** The connectivity probe is for yarn only, and whoever installs is told
    the value of line 131. *)
Definition onlineAsComputed (req : Request) (ev : Event) : Prop :=
  match ev with
  | EvGetOnline => packageManager req = yarn
  | EvInstall _ _ online | EvInstallTemplate _ _ _ _ _ online =>
      online = isOnlineFor req
  | _ => True
  end.

(** What lines 222-255 print, given the answer of [tryGitInit]. *)
Definition reported (req : Request) (t : Target) (hasPackageJson : bool)
    (initialized : bool) : list Message :=
  let useYarn := bool_decide (packageManager req = yarn) in
  let cdpath :=
    if decide (path_join (originalDirectory t) (appName t) = appPath req)
    then appName t else appPath req in
  (if initialized then [MsgGitInitialized; MsgBlank] else []) ++
  [MsgSuccess (appName t) (appPath req)] ++
  (if hasPackageJson
   then [MsgRunInstructions (packageManager req) useYarn cdpath] else []) ++
  [MsgBlank].

(** [k] consecutive transport calls from the [n]-th on fail, each with an
    error after which the retry package tries again. *)
Definition failsFrom (root example : string) (repoInfo : option RepoInfo)
    (n k : nat) : Prop :=
  ∀ i, i < k →
    ∃ err, retriable err = true ∧
           failsAt env root example repoInfo (n + i) err.

End Report.

(** Variations of the sample collaborators: what the repository lookup
    answers, whether the target directory is empty, what the installer
    and git answer. *)
Module Scenario.

Definition variant (info : option RepoInfo) (found empty : bool)
    (installResult : option Thrown) (git : bool) : Collab.t := {|
  Collab.newURL := Collab.newURL Sample.env;
  Collab.getRepoInfo := λ _ _, info;
  Collab.hasRepo := λ _, found;
  Collab.existsInRepo := Collab.existsInRepo Sample.env;
  Collab.path_resolve := Collab.path_resolve Sample.env;
  Collab.path_dirname := Collab.path_dirname Sample.env;
  Collab.path_basename := Collab.path_basename Sample.env;
  Collab.isWriteable := Collab.isWriteable Sample.env;
  Collab.makeDir := λ root d, <[root := "<dir>"]> d;
  Collab.isFolderEmpty := λ _ _ _, empty;
  Collab.getOnline := false;
  Collab.downloadAndExtractRepo := λ n root _ d,
    if n <? 1 then (d, Some (OtherValue "socket hang up"))
    else (Sample.blogFiles root d, None);
  Collab.downloadAndExtractExample :=
    Collab.downloadAndExtractExample Sample.env;
  Collab.getTemplateFile := Collab.getTemplateFile Sample.env;
  Collab.install := λ _ _ _ d, (d, installResult);
  Collab.installTemplate := λ _ root _ _ _ _ d,
    (<[path_join root "package.json" := "{}"]> d, None);
  Collab.tryGitInit := λ _ d, (d, git)
|}.

Definition githubUrl : string :=
  "https://github.com/acme/demo/tree/main/examples/foo".

(** The sample collaborators for a run that is started in the root
    directory and creates [/my-app] there. *)
Definition fromRoot : Collab.t := {|
  Collab.newURL := Collab.newURL Sample.env;
  Collab.getRepoInfo := Collab.getRepoInfo Sample.env;
  Collab.hasRepo := Collab.hasRepo Sample.env;
  Collab.existsInRepo := Collab.existsInRepo Sample.env;
  Collab.path_resolve := Collab.path_resolve Sample.env;
  Collab.path_dirname := λ _, "/";
  Collab.path_basename := Collab.path_basename Sample.env;
  Collab.isWriteable := Collab.isWriteable Sample.env;
  Collab.makeDir := Collab.makeDir Sample.env;
  Collab.isFolderEmpty := Collab.isFolderEmpty Sample.env;
  Collab.getOnline := Collab.getOnline Sample.env;
  Collab.downloadAndExtractRepo := Collab.downloadAndExtractRepo Sample.env;
  Collab.downloadAndExtractExample :=
    Collab.downloadAndExtractExample Sample.env;
  Collab.getTemplateFile := Collab.getTemplateFile Sample.env;
  Collab.install := Collab.install Sample.env;
  Collab.installTemplate := Collab.installTemplate Sample.env;
  Collab.tryGitInit := Collab.tryGitInit Sample.env
|}.

(** The sample collaborators with a transport for named examples that
    rejects every call with [err]. *)
Definition failingWith (err : Thrown) : Collab.t := {|
  Collab.newURL := Collab.newURL Sample.env;
  Collab.getRepoInfo := Collab.getRepoInfo Sample.env;
  Collab.hasRepo := Collab.hasRepo Sample.env;
  Collab.existsInRepo := Collab.existsInRepo Sample.env;
  Collab.path_resolve := Collab.path_resolve Sample.env;
  Collab.path_dirname := Collab.path_dirname Sample.env;
  Collab.path_basename := Collab.path_basename Sample.env;
  Collab.isWriteable := Collab.isWriteable Sample.env;
  Collab.makeDir := Collab.makeDir Sample.env;
  Collab.isFolderEmpty := Collab.isFolderEmpty Sample.env;
  Collab.getOnline := Collab.getOnline Sample.env;
  Collab.downloadAndExtractRepo := Collab.downloadAndExtractRepo Sample.env;
  Collab.downloadAndExtractExample := λ _ _ _ d, (d, Some err);
  Collab.getTemplateFile := Collab.getTemplateFile Sample.env;
  Collab.install := Collab.install Sample.env;
  Collab.installTemplate := Collab.installTemplate Sample.env;
  Collab.tryGitInit := Collab.tryGitInit Sample.env
|}.

Definition rootRequest (example : option string) : Request :=
  mkRequest "/my-app" npm example None false false.

Definition rootWorld : World := mkWorld Sample.disk "/" 0 [] [].

End Scenario.
(** ** The trace logic *)

Section TraceLogic.

Context (env : Collab.t).

Lemma produces_bind {A B} (m : M A) (f : A → M B)
    (Q1 Q2 Q : list Event → Prop) :
  produces m Q1 →
  (∀ a, produces (f a) Q2) →
  (∀ e1, Q1 e1 → Q e1) →
  (∀ e1 e2, Q1 e1 → Q2 e2 → Q (e1 ++ e2)) →
  produces (bind m f) Q.
Proof.
  intros Hm Hf Hstop Hjoin w. unfold bind.
  destruct (Hm w) as (e1 & He1 & HQ1).
  destruct (m w) as [[a|c|r|] w'] eqn:E; simpl in *.
  - destruct (Hf a w') as (e2 & He2 & HQ2).
    exists (e1 ++ e2). rewrite He2, He1, app_assoc. auto.
  - exists e1. auto.
  - exists e1. auto.
  - exists e1. auto.
Qed.

Lemma produces_mono {A} (m : M A) (Q Q' : list Event → Prop) :
  produces m Q → (∀ evs, Q evs → Q' evs) → produces m Q'.
Proof.
  intros Hm Himp w. destruct (Hm w) as (evs & ? & ?). exists evs. auto.
Qed.

Lemma produces_silent {A} (m : M A) (Q : list Event → Prop) :
  (∀ w, trace (m w).2 = trace w) → Q [] → produces m Q.
Proof.
  intros Hm HQ w. exists []. rewrite app_nil_r. auto.
Qed.

Lemma produces_emit (ev : Event) (Q : list Event → Prop) :
  Q [ev] → produces (emit ev) Q.
Proof. intros HQ w. exists [ev]. auto. Qed.

Section Only.

Context (P : Event → Prop).

Lemma only_bind {A B} (m : M A) (f : A → M B) :
  produces m (Forall P) →
  (∀ a, produces (f a) (Forall P)) →
  produces (bind m f) (Forall P).
Proof.
  intros Hm Hf. apply (produces_bind m f (Forall P) (Forall P)); auto.
  intros. by apply Forall_app_2.
Qed.

Lemma only_emit ev : P ev → produces (emit ev) (Forall P).
Proof. intros. apply produces_emit. by constructor. Qed.

Lemma only_ret {A} (a : A) : produces (ret a) (Forall P).
Proof. by apply produces_silent. Qed.

Lemma only_print msg : produces (print msg) (Forall P).
Proof. by apply produces_silent. Qed.

Lemma only_getFs : produces getFs (Forall P).
Proof. by apply produces_silent. Qed.

Lemma only_putFs disk : produces (putFs disk) (Forall P).
Proof. by apply produces_silent. Qed.

Lemma only_process_cwd : produces process_cwd (Forall P).
Proof. by apply produces_silent. Qed.

Lemma only_nextTransportCall : produces nextTransportCall (Forall P).
Proof. by apply produces_silent. Qed.

Lemma only_process_exit {A} code : produces (@process_exit A code) (Forall P).
Proof. by apply produces_silent. Qed.

Lemma only_throw {A} reason : produces (@throw A reason) (Forall P).
Proof. by apply produces_silent. Qed.

Lemma only_settle r : produces (settle r) (Forall P).
Proof. destruct r; by apply produces_silent. Qed.

Lemma only_setCwd dir : produces (setCwd dir) (Forall P).
Proof. by apply produces_silent. Qed.

Lemma only_tryCatch {A} (body : M A) (handler : Thrown → M A) :
  produces body (Forall P) →
  (∀ r, produces (handler r) (Forall P)) →
  produces (tryCatch body handler) (Forall P).
Proof.
  intros Hb Hh w. unfold tryCatch.
  destruct (Hb w) as (e1 & He1 & HQ1).
  destruct (body w) as [[a|c|r|] w'] eqn:E; simpl in *; eauto.
  destruct (Hh r w') as (e2 & He2 & HQ2).
  exists (e1 ++ e2). rewrite He2, He1, app_assoc.
  split; [done | by apply Forall_app_2].
Qed.

Lemma only_attempt {A} (fn : M A) timeouts errors :
  produces fn (Forall P) → produces (attempt fn timeouts errors) (Forall P).
Proof.
  intros Hfn. revert errors.
  induction timeouts as [|n IH]; intros errors w; simpl;
    destruct (Hfn w) as (e1 & He1 & HQ1);
    destruct (fn w) as [[a|c|r|] w'] eqn:E; simpl in *; eauto;
    destruct (isNullish r); simpl; eauto;
    destruct (hasBail r); simpl; eauto;
    destruct (isTruthy r); simpl; eauto.
  destruct (IH (errors ++ [r]) w') as (e2 & He2 & HQ2).
  exists (e1 ++ e2). rewrite He2, He1, app_assoc.
  split; [done | by apply Forall_app_2].
Qed.

Lemma only_retry {A} (fn : M A) retries :
  produces fn (Forall P) → produces (retry fn retries) (Forall P).
Proof. apply only_attempt. Qed.

End Only.

End TraceLogic.

(** One step of the trace logic: split a sequence, discharge a primitive,
    or branch on what the program branches on. *)
Ltac only_step :=
  match goal with
  | |- produces (bind _ _) (Forall _) => apply only_bind; [| intros ?]
  | |- produces (ret _) (Forall _) => apply only_ret
  | |- produces (emit _) (Forall _) => apply only_emit
  | |- produces (print _) (Forall _) => apply only_print
  | |- produces getFs (Forall _) => apply only_getFs
  | |- produces (putFs _) (Forall _) => apply only_putFs
  | |- produces process_cwd (Forall _) => apply only_process_cwd
  | |- produces nextTransportCall (Forall _) => apply only_nextTransportCall
  | |- produces (process_exit _) (Forall _) => apply only_process_exit
  | |- produces (throw _) (Forall _) => apply only_throw
  | |- produces (settle _) (Forall _) => apply only_settle
  | |- produces (tryCatch _ _) (Forall _) =>
      apply only_tryCatch; [| intros ?]
  | |- produces (retry _ _) (Forall _) => apply only_retry
  | |- produces (setCwd _) (Forall _) => apply only_setCwd
  | |- produces (when ?c _) (Forall _) => destruct c; unfold when
  | |- produces (if ?c then _ else _) (Forall _) => destruct c
  | |- produces (match ?x with _ => _ end) (Forall _) => destruct x
  end.

Ltac unfold_blocks :=
  unfold resolveExample, prepareDirectory, cloneOrTemplate, initAndReport,
    fetchExample, copyGitignore, copyNextEnv, installPackages, normalize,
    fetchFn, ifExample,
    getRepoInfo, hasRepo, existsInRepo, isWriteable, makeDir, isFolderEmpty,
    getOnline, process_chdir, downloadAndExtractRepo,
    downloadAndExtractExample, existsSync, copyFileSync, install,
    installTemplate, tryGitInit.

Ltac only_events :=
  repeat (progress (unfold_blocks; repeat only_step)); try done.

(** ** The retry wrapper *)

Section MainError.











(** Four failures named after a property of [Object.prototype] are not
    tallied, and the rejection is [null]. *)
Lemma rejection_of_inherited_messages :
  let err := ErrorLike "constructor" "Error: constructor" in
  rejection [err; err; err; err] = JsNull ∧ downloadMessage JsNull = "null".
Proof. split; reflexivity. Qed.

End MainError.

Section Retry.

Context (env : Collab.t).

Lemma attempt_settled {A} (fn : M A) timeouts errors w a w' :
  fn w = (Ret a, w') → attempt fn timeouts errors w = (Ret a, w').
Proof. intros H. destruct timeouts; simpl; by rewrite H. Qed.

Lemma retriable_reads err :
  retriable err = true →
  isNullish err = false ∧ hasBail err = false ∧ isTruthy err = true.
Proof. by destruct err. Qed.

Lemma attempt_again {A} (fn : M A) timeouts errors w err w' :
  fn w = (Throw err, w') →
  retriable err = true →
  attempt fn (S timeouts) errors w = attempt fn timeouts (errors ++ [err]) w'.
Proof.
  intros H Hr. destruct (retriable_reads err Hr) as (Hn & Hb & Ht).
  simpl. by rewrite H, Hn, Hb, Ht.
Qed.


(** A failure after which nothing is tried again: the promise stays
    pending on [null] and [undefined], is rejected with the error itself
    when it bails, and with [mainError()] of the failures recorded before
    when it is falsy. *)
Lemma attempt_ends {A} (fn : M A) timeouts errors w err w' :
  fn w = (Throw err, w') →
  retriable err = false →
  attempt fn timeouts errors w =
  (if isNullish err then Pending
   else if hasBail err then Throw err
   else Throw (rejection errors), w').
Proof.
  intros H Hr. destruct timeouts; simpl; rewrite H;
    destruct err; try discriminate; reflexivity.
Qed.

(** One transport call, whichever strategy. *)
Lemma fetchFn_run root example repoInfo w :
  fetchFn env root example repoInfo w =
  (match (fetchOracle env root example repoInfo (transportCalls w) (fs w)).2 with
   | Some err => Throw err
   | None => Ret tt
   end,
   afterFetch env root example repoInfo w).
Proof.
  unfold fetchFn, fetchOracle, afterFetch, fetchEvent.
  destruct repoInfo as [info|];
    unfold downloadAndExtractRepo, downloadAndExtractExample, bind, emit,
      nextTransportCall, getFs, putFs, settle; simpl.
  - by destruct (Collab.downloadAndExtractRepo env _ _ _ _) as [d [e|]].
  - by destruct (Collab.downloadAndExtractExample env _ _ _ _) as [d [e|]].
Qed.

Lemma fetchFn_fails root example repoInfo w err :
  failsAt env root example repoInfo (transportCalls w) err →
  fetchFn env root example repoInfo w =
  (Throw err, afterFetch env root example repoInfo w).
Proof. intros H. by rewrite fetchFn_run, H. Qed.

Lemma fetchFn_succeeds root example repoInfo w :
  succeedsAt env root example repoInfo (transportCalls w) →
  fetchFn env root example repoInfo w =
  (Ret tt, afterFetch env root example repoInfo w).
Proof. intros H. by rewrite fetchFn_run, H. Qed.

(** The fetch block is the retried fetch function after the announcement,
    with the handler applied to what the retry rejects with. *)
Lemma fetchExample_run root example repoInfo w :
  fetchExample env root example repoInfo w =
  match retry (fetchFn env root example repoInfo) 3
          (announced example repoInfo w) with
  | (Throw reason, w') => (Throw (DownloadError (downloadMessage reason)), w')
  | settled => settled
  end.
Proof.
  unfold fetchExample, tryCatch, fetchFn, announced.
  destruct repoInfo as [info|]; unfold bind, print, throw; simpl;
    rewrite <- app_assoc; simpl.
  - by destruct (retry (downloadAndExtractRepo env root info) 3 _)
      as [[[]|c|r|] w'].
  - by destruct (retry (downloadAndExtractExample env root example) 3 _)
      as [[[]|c|r|] w'].
Qed.

(** After [k] transport calls. *)
Lemma transportCalls_iter root example repoInfo k w :
  transportCalls (Nat.iter k (afterFetch env root example repoInfo) w) =
  transportCalls w + k.
Proof. induction k as [|k IH]; simpl; [lia|]. rewrite IH. lia. Qed.

Lemma trace_iter root example repoInfo k w :
  trace (Nat.iter k (afterFetch env root example repoInfo) w) =
  trace w ++ replicate k (fetchEvent root example repoInfo).
Proof.
  induction k as [|k IH]; simpl; [by rewrite app_nil_r|].
  rewrite IH, <- app_assoc. f_equal.
  change (replicate k (fetchEvent root example repoInfo) ++
          [fetchEvent root example repoInfo] =
          replicate (S k) (fetchEvent root example repoInfo)).
  by rewrite replicate_S_end.
Qed.

(** Whatever the transport does, [retries] retries mean at least one and
    at most [retries + 1] transport calls. *)
Lemma attempt_fetch_bound root example repoInfo retries :
  ∀ errors w,
    ∃ k, 1 ≤ k ≤ S retries ∧
         (attempt (fetchFn env root example repoInfo) retries errors w).2 =
         Nat.iter k (afterFetch env root example repoInfo) w.
Proof.
  induction retries as [|n IH]; intros errors w; simpl;
    rewrite fetchFn_run;
    destruct (fetchOracle env root example repoInfo (transportCalls w) (fs w)).2
      as [err|]; try (exists 1; split; [lia|done]);
    destruct (isNullish err); try (exists 1; split; [lia|done]);
    destruct (hasBail err); try (exists 1; split; [lia|done]);
    destruct (isTruthy err); try (exists 1; split; [lia|done]).
  destruct (IH (errors ++ [err]) (afterFetch env root example repoInfo w))
    as (k & Hk & Hrun).
  exists (S k). split; [lia|]. by rewrite Hrun, <- Nat.iter_succ_r.
Qed.

Lemma fetchExample_world root example repoInfo w :
  (fetchExample env root example repoInfo w).2 =
  (retry (fetchFn env root example repoInfo) 3
     (announced example repoInfo w)).2.
Proof.
  rewrite fetchExample_run.
  by destruct (retry _ 3 _) as [[[]|c|r|] w'].
Qed.

End Retry.




(** ** The order of the stages *)

Section Stages.

Context (env : Collab.t).

Lemma same_stage_staged s evs :
  Forall (λ ev, stageOf ev = s) evs → staged (position s) (position s) evs.
Proof.
  intros Hall. split.
  - induction Hall as [|ev evs Hev Hall IH]; constructor; [done|].
    eapply Forall_impl; [exact Hall|]. simpl. intros ev' ->. by rewrite Hev.
  - eapply Forall_impl; [exact Hall|]. simpl. intros ev ->. lia.
Qed.

Lemma staged_weaken lo hi lo' hi' evs :
  lo' ≤ lo → hi ≤ hi' → staged lo hi evs → staged lo' hi' evs.
Proof.
  intros Hlo Hhi [Hsorted Hall]. split; [done|].
  eapply Forall_impl; [exact Hall|]. simpl. lia.
Qed.

Lemma staged_app lo mid hi e1 e2 :
  lo ≤ mid → mid ≤ hi →
  staged lo mid e1 → staged mid hi e2 → staged lo hi (e1 ++ e2).
Proof.
  intros Hlo Hhi [Hs1 Ha1] [Hs2 Ha2]. split.
  - apply StronglySorted_app_2; [|done..].
    intros x1 x2 Hx1 Hx2.
    rewrite Forall_forall in Ha1, Ha2.
    specialize (Ha1 x1 Hx1). specialize (Ha2 x2 Hx2). lia.
  - apply Forall_app_2; (eapply Forall_impl; [eassumption|]); simpl; lia.
Qed.

Lemma staged_bind lo mid hi {A B} (m : M A) (f : A → M B) :
  lo ≤ mid → mid ≤ hi →
  produces m (staged lo mid) →
  (∀ a, produces (f a) (staged mid hi)) →
  produces (bind m f) (staged lo hi).
Proof.
  intros Hlo Hhi Hm Hf.
  apply (produces_bind m f (staged lo mid) (staged mid hi)); auto.
  - intros e1. by apply staged_weaken.
  - intros e1 e2. by apply staged_app.
Qed.

Lemma same_stage_produces {A} (m : M A) s lo hi :
  lo ≤ position s → position s ≤ hi →
  produces m (Forall (λ ev, stageOf ev = s)) →
  produces m (staged lo hi).
Proof.
  intros Hlo Hhi Hm. apply (produces_mono _ _ _ Hm).
  intros evs Hall.
  by apply (staged_weaken (position s) (position s)), same_stage_staged.
Qed.

Lemma resolveExample_staged req :
  produces (resolveExample env req) (staged 0 0).
Proof. apply (same_stage_produces _ Resolving); [done|done|]. only_events. Qed.

Lemma prepareDirectory_staged req :
  produces (prepareDirectory env req) (staged 1 2).
Proof.
  unfold prepareDirectory.
  apply (staged_bind 1 1 2); [lia|lia| |intros here].
  { apply (same_stage_produces _ Validating); [done|done|]. only_events. }
  apply (staged_bind 1 1 2); [lia|lia| |intros writable].
  { apply (same_stage_produces _ Validating); [done|done|]. only_events. }
  apply (staged_bind 1 1 2); [lia|lia| |intros _].
  { apply (same_stage_produces _ Validating); [done|done|]. only_events. }
  apply (same_stage_produces _ PreparingDirectory); [simpl; lia|done|].
  only_events.
Qed.

Lemma installPackages_staged root pm online :
  produces (installPackages env root pm online) (staged 4 5).
Proof.
  unfold installPackages.
  apply (staged_bind 4 4 5); [lia|lia| |intros hasPackageJson].
  { apply (same_stage_produces _ Normalizing); [done|done|]. only_events. }
  apply (same_stage_produces _ Installing); [simpl; lia|done|].
  only_events.
Qed.

Lemma cloneOrTemplate_staged req repoInfo t :
  produces (cloneOrTemplate env req repoInfo t) (staged 3 5).
Proof.
  unfold cloneOrTemplate, ifExample.
  destruct (example req) as [example|]; [destruct (truthy (Some example))|].
  - apply (staged_bind 3 3 5); [lia|lia| |intros _].
    { apply (same_stage_produces _ FetchingOrMaterializing); [done|done|].
      only_events. }
    apply (staged_bind 3 4 5); [lia|lia| |intros _].
    { apply (same_stage_produces _ Normalizing); [simpl; lia|done|].
      only_events. }
    apply (staged_bind 4 4 5); [lia|lia| |intros _].
    { apply (same_stage_produces _ Normalizing); [done|done|]. only_events. }
    apply installPackages_staged.
  - apply (same_stage_produces _ FetchingOrMaterializing);
      [done|simpl; lia|]. only_events.
  - apply (same_stage_produces _ FetchingOrMaterializing);
      [done|simpl; lia|]. only_events.
Qed.

Lemma initAndReport_staged req t hasPackageJson :
  produces (initAndReport env req t hasPackageJson) (staged 6 6).
Proof.
  apply (same_stage_produces _ InitVersionControl); [done|done|].
  only_events.
Qed.

Lemma createApp_staged req : produces (createApp env req) (staged 0 6).
Proof.
  unfold createApp.
  apply (staged_bind 0 0 6); [lia|lia| |intros repoInfo].
  { apply resolveExample_staged. }
  apply (staged_bind 0 2 6); [lia|lia| |intros t].
  { eapply produces_mono; [apply prepareDirectory_staged|].
    intros evs. apply staged_weaken; lia. }
  apply (staged_bind 2 5 6); [lia|lia| |intros hasPackageJson].
  { eapply produces_mono; [apply cloneOrTemplate_staged|].
    intros evs. apply staged_weaken; lia. }
  eapply produces_mono; [apply initAndReport_staged|].
  intros evs. apply staged_weaken; lia.
Qed.

(** An unwritable parent is fatal, and it is found out only once the
    example has been resolved. *)
Lemma unwritable_parent_is_fatal req w repoInfo w1 :
  let dir := Collab.path_dirname env
               (Collab.path_resolve env (cwd w1) (appPath req)) in
  resolveExample env req w = (Ret repoInfo, w1) →
  Collab.isWriteable env dir (fs w1) = false →
  createApp env req w =
  (Exit 1,
   mkWorld (fs w1) (cwd w1) (transportCalls w1)
     (trace w1 ++ [EvIsWriteable dir])
     (console w1 ++ [MsgNotWritable; MsgNoWritePermission])).
Proof.
  intros dir Hres Hw. unfold createApp, bind. rewrite Hres.
  unfold prepareDirectory, isWriteable, bind, process_cwd, emit, getFs, ret.
  simpl. fold dir. rewrite Hw. simpl. by rewrite <- app_assoc.
Qed.

End Stages.

(** C2, as amended.  The stages of every run come in the order resolve
    (when an example is given), validate, prepare the target directory,
    fetch or materialize, and then normalize, install and initialize
    version control: the calls appended to the trace are sorted by the
    position of their stage.  The writability of the parent is checked
    after the resolution and its remote existence checks; when it fails the
    run ends with exit code 1, the check being the only call made after
    the resolution. *)
Theorem stages_run_in_order (env : Collab.t) (req : Request) (w : World) :
  (∃ evs, trace (createApp env req w).2 = trace w ++ evs ∧
          inStageOrder position evs)
  ∧
  (∀ repoInfo w1,
     let dir := Collab.path_dirname env
                  (Collab.path_resolve env (cwd w1) (appPath req)) in
     resolveExample env req w = (Ret repoInfo, w1) →
     Collab.isWriteable env dir (fs w1) = false →
     (createApp env req w).1 = Exit 1 ∧
     fs (createApp env req w).2 = fs w1 ∧
     trace (createApp env req w).2 = trace w1 ++ [EvIsWriteable dir] ∧
     ∃ resolving, trace w1 = trace w ++ resolving ∧
                  Forall (λ ev, stageOf ev = Resolving) resolving).
Proof.
  split.
  - destruct (createApp_staged env req w) as (evs & Htrace & Hsorted & _).
    by exists evs.
  - intros repoInfo w1 dir Hres Hw.
    rewrite (unwritable_parent_is_fatal env req w repoInfo w1 Hres Hw).
    repeat split.
    assert (Hr : produces (resolveExample env req)
                   (Forall (λ ev, stageOf ev = Resolving))) by only_events.
    destruct (Hr w) as (evs & Htrace & Hall). rewrite Hres in Htrace.
    by exists evs.
Qed.

(** The theorem at work: on a read-only disk the catalog is asked about
    [blog] first, then the parent directory is found unwritable and the run
    exits. *)
Lemma stages_run_in_order_witness :
  let req := Sample.request (Some "blog") in
  let w1 := mkWorld Sample.disk "/work" 0 [EvExistsInRepo "blog"] [] in
  let run := createApp Sample.readOnly req Sample.world in
  run.1 = Exit 1 ∧
  fs run.2 = fs w1 ∧
  trace run.2 = trace w1 ++ [EvIsWriteable "/work"] ∧
  ∃ resolving, trace w1 = trace Sample.world ++ resolving ∧
               Forall (λ ev, stageOf ev = Resolving) resolving.
Proof.
  intros req w1 run.
  apply (proj2 (stages_run_in_order Sample.readOnly req Sample.world) None w1);
    reflexivity.
Defined.

(** C2, as stated, fails on the request for the example [blog]: the first
    call of the run is the remote existence check and the writability check
    comes second, so the trace is not in the order that validates first.
    On a read-only disk the existence check is still made. *)
Lemma resolution_precedes_validation :
  let run := createApp Sample.env (Sample.request (Some "blog")) Sample.world in
  let denied :=
    createApp Sample.readOnly (Sample.request (Some "blog")) Sample.world in
  trace run.2 !! 0 = Some (EvExistsInRepo "blog") ∧
  trace run.2 !! 1 = Some (EvIsWriteable "/work") ∧
  ¬ inStageOrder validateFirstPosition (trace run.2) ∧
  trace denied.2 = [EvExistsInRepo "blog"; EvIsWriteable "/work"].
Proof.
  intros run denied.
  assert (Htrace : ∃ rest, trace run.2 =
            EvExistsInRepo "blog" :: EvIsWriteable "/work" :: rest)
    by (eexists; vm_compute; reflexivity).
  destruct Htrace as [rest Htrace]. rewrite Htrace.
  repeat split.
  intros Hsorted. apply StronglySorted_cons in Hsorted as [Hfirst _].
  apply Forall_cons in Hfirst as [Hle _]. simpl in Hle. lia.
Qed.

(** ** Resolution of the example *)

Section Resolution.

Context (env : Collab.t).

Lemma truthy_nonempty ex : ex ≠ EmptyString → truthy (Some ex) = true.
Proof. intros H. by apply bool_decide_eq_true_2. Qed.

Lemma truthy_empty : truthy (Some EmptyString) = false.
Proof. reflexivity. Qed.

Lemma ifExample_truthy {A} ex (thenBranch : string → M A) elseBranch :
  ex ≠ EmptyString →
  ifExample (Some ex) thenBranch elseBranch = thenBranch ex.
Proof. intros H. unfold ifExample. by rewrite truthy_nonempty. Qed.

(** A URL that is not on GitHub: the run stops in the resolution. *)
Lemma resolveExample_foreign_url req ex url w :
  example req = Some ex → ex ≠ EmptyString →
  Collab.newURL env ex = inl url →
  origin url ≠ "https://github.com" →
  resolveExample env req w =
  (Exit 1,
   mkWorld (fs w) (cwd w) (transportCalls w) (trace w)
     (console w ++ [MsgInvalidURL ex])).
Proof.
  intros Hex Hne Hurl Horigin. unfold resolveExample.
  rewrite Hex, ifExample_truthy by done. unfold bind. rewrite Hurl. simpl.
  by rewrite bool_decide_eq_true_2.
Qed.

(** A string that is not a URL: a named example, looked up in the catalog
    unless it is the retry sentinel. *)
Lemma resolveExample_named req ex w :
  example req = Some ex → ex ≠ EmptyString →
  Collab.newURL env ex = inr "ERR_INVALID_URL" →
  resolveExample env req w =
  if decide (ex = "__internal-testing-retry") then (Ret None, w)
  else
    let asked :=
      mkWorld (fs w) (cwd w) (transportCalls w)
        (trace w ++ [EvExistsInRepo ex]) (console w) in
    if Collab.existsInRepo env ex then (Ret None, asked)
    else (Exit 1,
          mkWorld (fs w) (cwd w) (transportCalls w)
            (trace w ++ [EvExistsInRepo ex])
            (console w ++ [MsgExampleNotFound ex])).
Proof.
  intros Hex Hne Hurl. unfold resolveExample.
  rewrite Hex, ifExample_truthy by done. unfold bind. rewrite Hurl. simpl.
  destruct (decide (ex = "__internal-testing-retry")) as [Hs|Hs].
  - rewrite bool_decide_eq_false_2 by (intros H; by apply H).
    by destruct w.
  - rewrite bool_decide_eq_true_2 by done.
    unfold existsInRepo, bind, emit, ret. simpl.
    by destruct (Collab.existsInRepo env ex).
Qed.

(** Any other parse error is printed and ends the run. *)
Lemma resolveExample_parse_error req ex code w :
  example req = Some ex → ex ≠ EmptyString →
  Collab.newURL env ex = inr code →
  code ≠ "ERR_INVALID_URL" →
  resolveExample env req w =
  (Exit 1,
   mkWorld (fs w) (cwd w) (transportCalls w) (trace w)
     (console w ++ [MsgParseError code])).
Proof.
  intros Hex Hne Hurl Hcode. unfold resolveExample.
  rewrite Hex, ifExample_truthy by done. unfold bind. rewrite Hurl. simpl.
  by rewrite bool_decide_eq_true_2.
Qed.

Lemma createApp_exits_in_resolution req w code w' :
  resolveExample env req w = (Exit code, w') →
  createApp env req w = (Exit code, w').
Proof. intros H. unfold createApp, bind. by rewrite H. Qed.

(** Once a named example is resolved, the rest of the run makes no call
    that concerns a repository. *)
Lemma named_rest_makes_no_repo_call req :
  produces
    (let! t := prepareDirectory env req in
     let! hasPackageJson := cloneOrTemplate env req None t in
     initAndReport env req t hasPackageJson)
    (Forall (λ ev, isRepoCall ev = false)).
Proof.
  apply only_bind; [only_events|intros t].
  apply only_bind; [|intros h; only_events].
  unfold cloneOrTemplate, fetchExample. only_events.
Qed.

End Resolution.

(** C4.  When the example parses as a URL whose origin is not
    [https://github.com], the run ends with exit code 1 before any
    collaborator is called: the disk and the working directory are
    untouched and the trace has no new call, so the target directory was
    not created. *)
Theorem non_github_url_is_fatal (env : Collab.t) (req : Request)
    (ex : string) (url : URL) (w : World) :
  example req = Some ex →
  ex ≠ EmptyString →
  Collab.newURL env ex = inl url →
  origin url ≠ "https://github.com" →
  ∃ w', createApp env req w = (Exit 1, w') ∧
        (1 ≠ 0)%Z ∧
        fs w' = fs w ∧ cwd w' = cwd w ∧ trace w' = trace w ∧
        console w' = console w ++ [MsgInvalidURL ex].
Proof.
  intros Hex Hne Hurl Horigin. eexists. split.
  - apply createApp_exits_in_resolution.
    by apply (resolveExample_foreign_url env req ex url).
  - by repeat split.
Qed.

(** The theorem on scenario B of the specification. *)
Lemma non_github_url_is_fatal_witness :
  ∃ w', createApp Sample.env
          (Sample.request (Some "https://notgithub.com/x/y")) Sample.world =
          (Exit 1, w') ∧
        (1 ≠ 0)%Z ∧
        fs w' = Sample.disk ∧ cwd w' = "/work" ∧ trace w' = [] ∧
        console w' = [MsgInvalidURL "https://notgithub.com/x/y"].
Proof.
  apply (non_github_url_is_fatal Sample.env
           (Sample.request (Some "https://notgithub.com/x/y"))
           "https://notgithub.com/x/y" (mkURL "https://notgithub.com" "/x/y")
           Sample.world); [reflexivity|discriminate|reflexivity|discriminate].
Defined.

(** C8.  A failure to parse the example as a URL is not an error when its
    code is [ERR_INVALID_URL]: the example is then a named one, no
    repository information is resolved, the catalog is asked whether the
    name exists unless it is the retry sentinel, and no call of the whole
    run concerns a repository.  A parse error with any other code is
    printed and ends the run with exit code 1, and the catalog is not asked. *)
Theorem unparsable_example (env : Collab.t) (req : Request)
    (ex code : string) (w : World) :
  example req = Some ex →
  ex ≠ EmptyString →
  Collab.newURL env ex = inr code →
  (code = "ERR_INVALID_URL" →
     (resolveExample env req w =
      if decide (ex = "__internal-testing-retry") then (Ret None, w)
      else if Collab.existsInRepo env ex
      then (Ret None,
            mkWorld (fs w) (cwd w) (transportCalls w)
              (trace w ++ [EvExistsInRepo ex]) (console w))
      else (Exit 1,
            mkWorld (fs w) (cwd w) (transportCalls w)
              (trace w ++ [EvExistsInRepo ex])
              (console w ++ [MsgExampleNotFound ex]))) ∧
     ∃ evs, trace (createApp env req w).2 = trace w ++ evs ∧
            Forall (λ ev, isRepoCall ev = false) evs)
  ∧
  (code ≠ "ERR_INVALID_URL" →
     createApp env req w =
     (Exit 1,
      mkWorld (fs w) (cwd w) (transportCalls w) (trace w)
        (console w ++ [MsgParseError code]))).
Proof.
  intros Hex Hne Hurl. split.
  - intros ->.
    pose proof (resolveExample_named env req ex w Hex Hne Hurl) as Hres.
    split; [exact Hres|].
    pose proof (named_rest_makes_no_repo_call env req) as Hrest.
    unfold createApp. unfold bind at 1. rewrite Hres.
    destruct (decide (ex = "__internal-testing-retry")).
    + apply Hrest.
    + simpl. destruct (Collab.existsInRepo env ex).
      * match goal with
        | |- context [bind _ _ ?w1] => destruct (Hrest w1) as (evs & Ht & Hall)
        end.
        exists (EvExistsInRepo ex :: evs). rewrite Ht. simpl.
        rewrite <- app_assoc. split; [done|]. by constructor.
      * exists [EvExistsInRepo ex]. split; [done|]. by constructor.
  - intros Hcode. apply createApp_exits_in_resolution.
    by apply (resolveExample_parse_error env req ex).
Qed.

(** The theorem on the named example [blog] and on a malformed address. *)
Lemma unparsable_example_witness :
  (resolveExample Sample.env (Sample.request (Some "blog")) Sample.world =
     (Ret None,
      mkWorld Sample.disk "/work" 0 [EvExistsInRepo "blog"] [])) ∧
  createApp Sample.env (Sample.request (Some "http://[bad")) Sample.world =
    (Exit 1, mkWorld Sample.disk "/work" 0 [] [MsgParseError "ERR_OTHER"]).
Proof.
  split.
  - apply (proj1 (unparsable_example Sample.env (Sample.request (Some "blog"))
                    "blog" "ERR_INVALID_URL" Sample.world
                    eq_refl ltac:(discriminate) eq_refl)).
    reflexivity.
  - apply (proj2 (unparsable_example Sample.env
                    (Sample.request (Some "http://[bad"))
                    "http://[bad" "ERR_OTHER" Sample.world
                    eq_refl ltac:(discriminate) eq_refl)).
    discriminate.
Defined.

(** ** The example path: fetch, normalisation, installation *)

Section ExamplePath.

Context (env : Collab.t).

Lemma string_length_app (s1 s2 : string) :
  String.length (s1 +:+ s2) = String.length s1 + String.length s2.
Proof. induction s1 as [|c s1 IH]; [done|]. simpl. by rewrite <- IH. Qed.

Lemma path_join_longer dir file :
  file ≠ EmptyString → String.length dir < String.length (path_join dir file).
Proof.
  intros Hfile. unfold path_join.
  destruct (decide (file = EmptyString)); [done|].
  destruct file as [|c file]; [done|].
  destruct (decide (dir = "/")) as [->|_];
    rewrite !string_length_app; simpl; lia.
Qed.

Lemma path_join_inj dir file file' :
  path_join dir file = path_join dir file' → file = file'.
Proof.
  intros H.
  destruct (decide (file = EmptyString)) as [->|Hfile];
    destruct (decide (file' = EmptyString)) as [->|Hfile']; [done| | |].
  - pose proof (path_join_longer dir file' Hfile') as Hlen.
    rewrite <- H in Hlen. unfold path_join in Hlen. simpl in Hlen. lia.
  - pose proof (path_join_longer dir file Hfile) as Hlen.
    rewrite H in Hlen. unfold path_join in Hlen. simpl in Hlen. lia.
  - unfold path_join in H.
    destruct (decide (file = EmptyString)); [done|].
    destruct (decide (file' = EmptyString)); [done|].
    destruct (decide (dir = "/")).
    + by apply (inj (String.append "/")) in H.
    + by apply (inj (String.append "/")), (inj (String.append dir)).
Qed.

Lemma calls_app kind e1 e2 : calls kind (e1 ++ e2) = calls kind e1 + calls kind e2.
Proof. unfold calls. by rewrite List.filter_app, length_app. Qed.

Lemma calls_none kind evs :
  Forall (λ ev, kind ev = false) evs → calls kind evs = 0.
Proof.
  unfold calls. induction 1 as [|ev evs Hev _ IH]; [done|].
  simpl. by rewrite Hev.
Qed.

(** With an example, lines 142-206 are the four blocks in sequence. *)
Lemma cloneOrTemplate_example req ex repoInfo t :
  example req = Some ex → ex ≠ EmptyString →
  cloneOrTemplate env req repoInfo t =
  (fetchExample env (root t) ex repoInfo >>
   copyGitignore env (root t) (templateOf req) (modeOf req) >>
   copyNextEnv env (root t) (templateOf req) >>
   installPackages env (root t) (packageManager req) (isOnline t)).
Proof.
  intros Hex Hne. unfold cloneOrTemplate. by rewrite Hex, ifExample_truthy.
Qed.

Lemma copyGitignore_present root template mode w :
  is_Some (fs w !! path_join root ".gitignore") →
  copyGitignore env root template mode w =
  (Ret tt,
   mkWorld (fs w) (cwd w) (transportCalls w)
     (trace w ++ [EvExistsSync (path_join root ".gitignore")]) (console w)).
Proof.
  intros H. unfold copyGitignore, existsSync, bind, emit, getFs, ret. simpl.
  by rewrite bool_decide_eq_true_2.
Qed.

Lemma copyGitignore_absent root template mode w :
  fs w !! path_join root ".gitignore" = None →
  copyGitignore env root template mode w =
  let ignorePath := path_join root ".gitignore" in
  let source := Collab.getTemplateFile env template mode "gitignore" in
  let called := trace w ++ [EvExistsSync ignorePath; EvCopyFile source ignorePath] in
  match fs w !! source with
  | Some content =>
      (Ret tt,
       mkWorld (<[ignorePath := content]> (fs w)) (cwd w) (transportCalls w)
         called (console w))
  | None =>
      (Throw (enoent source ignorePath),
       mkWorld (fs w) (cwd w) (transportCalls w) called (console w))
  end.
Proof.
  intros H. unfold copyGitignore, existsSync, copyFileSync, bind, emit, getFs,
    ret. simpl.
  rewrite bool_decide_eq_false_2 by (rewrite H; by intros [? ?]).
  simpl. unfold bind. simpl.
  destruct (fs w !! Collab.getTemplateFile env template mode "gitignore");
    unfold putFs, throw; simpl; by rewrite <- app_assoc.
Qed.

Lemma copyNextEnv_absent root template w :
  fs w !! path_join root "tsconfig.json" = None →
  copyNextEnv env root template w =
  (Ret tt,
   mkWorld (fs w) (cwd w) (transportCalls w)
     (trace w ++ [EvExistsSync (path_join root "tsconfig.json")]) (console w)).
Proof.
  intros H. unfold copyNextEnv, existsSync, bind, emit, getFs, ret. simpl.
  by rewrite bool_decide_eq_false_2 by (rewrite H; by intros [? ?]).
Qed.

Lemma copyNextEnv_present root template w :
  is_Some (fs w !! path_join root "tsconfig.json") →
  copyNextEnv env root template w =
  let nextEnv := path_join root "next-env.d.ts" in
  let source := Collab.getTemplateFile env template ts "next-env.d.ts" in
  let called :=
    trace w ++ [EvExistsSync (path_join root "tsconfig.json");
                EvCopyFile source nextEnv] in
  match fs w !! source with
  | Some content =>
      (Ret tt,
       mkWorld (<[nextEnv := content]> (fs w)) (cwd w) (transportCalls w)
         called (console w))
  | None =>
      (Throw (enoent source nextEnv),
       mkWorld (fs w) (cwd w) (transportCalls w) called (console w))
  end.
Proof.
  intros H. unfold copyNextEnv, existsSync, copyFileSync, bind, emit, getFs,
    ret. simpl.
  rewrite bool_decide_eq_true_2 by done.
  simpl. unfold bind. simpl.
  destruct (fs w !! Collab.getTemplateFile env template ts "next-env.d.ts");
    unfold putFs, throw; simpl; by rewrite <- app_assoc.
Qed.

Lemma installPackages_absent root pm online w :
  fs w !! path_join root "package.json" = None →
  installPackages env root pm online w =
  (Ret false,
   mkWorld (fs w) (cwd w) (transportCalls w)
     (trace w ++ [EvExistsSync (path_join root "package.json")]) (console w)).
Proof.
  intros H. unfold installPackages, existsSync, bind, emit, getFs, ret. simpl.
  by rewrite bool_decide_eq_false_2 by (rewrite H; by intros [? ?]).
Qed.

Lemma installPackages_present root pm online w :
  is_Some (fs w !! path_join root "package.json") →
  installPackages env root pm online w =
  let called :=
    trace w ++ [EvExistsSync (path_join root "package.json");
                EvInstall root pm online] in
  let '(disk', r) := Collab.install env root pm online (fs w) in
  match r with
  | None =>
      (Ret true,
       mkWorld disk' (cwd w) (transportCalls w) called
         (console w ++ [MsgInstalling; MsgBlank; MsgBlank]))
  | Some err =>
      (Throw err,
       mkWorld disk' (cwd w) (transportCalls w) called
         (console w ++ [MsgInstalling; MsgBlank]))
  end.
Proof.
  intros H. unfold installPackages, existsSync, install, bind, emit, getFs,
    ret, print. simpl.
  rewrite bool_decide_eq_true_2 by done. simpl.
  destruct (Collab.install env root pm online (fs w)) as [disk' [err|]];
    simpl; rewrite <- !app_assoc; simpl; reflexivity.
Qed.

(** [createApp] on an example is the run up to the end of the
    normalisation, then the gated installation, then git and the report. *)
Lemma createApp_via_normalized req ex w :
  example req = Some ex → ex ≠ EmptyString →
  createApp env req w =
  (let! p := reachNormalized env req ex in
   let! hasPackageJson :=
     installPackages env (root p.2) (packageManager req) (isOnline p.2) in
   initAndReport env req p.2 hasPackageJson) w.
Proof.
  intros Hex Hne. unfold createApp, reachNormalized, normalize, bind.
  destruct (resolveExample env req w) as [[repoInfo|c|r|] w1]; [|done..].
  destruct (prepareDirectory env req w1) as [[t|c|r|] w2]; [|done..].
  rewrite (cloneOrTemplate_example req ex) by done. unfold bind.
  destruct (fetchExample env (root t) ex repoInfo w2) as [[[]|c|r|] w3];
    [|done..].
  destruct (copyGitignore env _ _ _ w3) as [[[]|c|r|] w4]; [|done..].
  by destruct (copyNextEnv env _ _ w4) as [[[]|c|r|] w5].
Qed.

Lemma reachNormalized_no_install req ex :
  produces (reachNormalized env req ex) (Forall (λ ev, isInstall ev = false)).
Proof. unfold reachNormalized. only_events. Qed.

Lemma initAndReport_no_install req t hasPackageJson :
  produces (initAndReport env req t hasPackageJson)
    (Forall (λ ev, isInstall ev = false)).
Proof. only_events. Qed.

(** The [.gitignore] step leaves every other file of the target directory
    as it was. *)
Lemma copyGitignore_keeps_others root template mode w w2 file :
  copyGitignore env root template mode w = (Ret tt, w2) →
  file ≠ ".gitignore" →
  fs w2 !! path_join root file = fs w !! path_join root file.
Proof.
  intros Hgit Hfile.
  destruct (fs w !! path_join root ".gitignore") as [kept|] eqn:Hignore.
  - rewrite copyGitignore_present in Hgit by (rewrite Hignore; eauto).
    by inversion Hgit.
  - rewrite copyGitignore_absent in Hgit by done. simpl in Hgit.
    destruct (fs w !! Collab.getTemplateFile env _ _ "gitignore");
      inversion Hgit; subst; simpl.
    apply lookup_insert_ne. intros Heq.
    apply path_join_inj in Heq. congruence.
Qed.

End ExamplePath.

(** C5.  When the retried fetch still fails, with [reason], the handler on
    lines 169-180 throws a [DownloadError] whose message is the message of
    [reason] if it has a string message and its string coercion otherwise.
    [createApp] rejects with that error in the world in which the retry
    gave up: nothing runs afterwards, and the template is never
    materialized. *)
Theorem download_failure_is_propagated (env : Collab.t) (req : Request)
    (ex : string) (repoInfo : option RepoInfo) (t : Target) (reason : Thrown)
    (w0 w1 w2 w3 : World) :
  example req = Some ex →
  ex ≠ EmptyString →
  resolveExample env req w0 = (Ret repoInfo, w1) →
  prepareDirectory env req w1 = (Ret t, w2) →
  retry (fetchFn env (root t) ex repoInfo) 3 (announced ex repoInfo w2) =
    (Throw reason, w3) →
  createApp env req w0 =
    (Throw (DownloadError
              (match message_of reason with
               | Some message => message
               | None => coerce reason
               end)), w3) ∧
  ∃ evs, trace w3 = trace w0 ++ evs ∧
         Forall (λ ev, isMaterialize ev = false) evs.
Proof.
  intros Hex Hne Hres Hprep Hretry. split.
  - unfold createApp, bind. rewrite Hres, Hprep.
    rewrite (cloneOrTemplate_example env req ex) by done. unfold bind.
    rewrite fetchExample_run, Hretry. by destruct reason as [| | | |[]| | |].
  - assert (H1 : produces (resolveExample env req)
                   (Forall (λ ev, isMaterialize ev = false))) by only_events.
    assert (H2 : produces (prepareDirectory env req)
                   (Forall (λ ev, isMaterialize ev = false))) by only_events.
    assert (H3 : produces (retry (fetchFn env (root t) ex repoInfo) 3)
                   (Forall (λ ev, isMaterialize ev = false))) by only_events.
    destruct (H1 w0) as (e1 & Ht1 & Ha1). rewrite Hres in Ht1.
    destruct (H2 w1) as (e2 & Ht2 & Ha2). rewrite Hprep in Ht2.
    destruct (H3 (announced ex repoInfo w2)) as (e3 & Ht3 & Ha3).
    rewrite Hretry in Ht3. simpl in Ht1, Ht2, Ht3.
    exists (e1 ++ e2 ++ e3). rewrite Ht3, Ht2, Ht1, <- !app_assoc.
    split; [done|]. by repeat apply Forall_app_2.
Qed.

(** The theorem on the retry sentinel, whose fetch always fails. *)
Lemma download_failure_is_propagated_witness :
  let w2 :=
    mkWorld Sample.disk "/work/my-app" 0
      [EvIsWriteable "/work"; EvMakeDir "/work/my-app";
       EvIsFolderEmpty "/work/my-app" "my-app"; EvChdir "/work/my-app"]
      [MsgCreating "/work/my-app"; MsgBlank] in
  let w3 :=
    mkWorld Sample.disk "/work/my-app" 4
      (trace w2 ++
       replicate 4 (EvDownloadExample "/work/my-app" "__internal-testing-retry"))
      (console w2 ++
       [MsgDownloadingExample "__internal-testing-retry"; MsgBlank]) in
  createApp Sample.env (Sample.request (Some "__internal-testing-retry"))
    Sample.world = (Throw (DownloadError "reset"), w3) ∧
  ∃ evs, trace w3 = trace Sample.world ++ evs ∧
         Forall (λ ev, isMaterialize ev = false) evs.
Proof.
  intros w2 w3.
  apply (download_failure_is_propagated Sample.env
           (Sample.request (Some "__internal-testing-retry"))
           "__internal-testing-retry" None
           (mkTarget "/work/my-app" "my-app" true "/work")
           (ErrorLike "reset" "Error: reset")
           Sample.world Sample.world w2 w3);
    [reflexivity|discriminate|reflexivity|reflexivity
    |vm_compute; reflexivity].
Defined.

(** C3.  On the example path, once the fetch and the normalisation are
    over, [hasPackageJson] is true exactly when [package.json] exists in
    the target directory, and the run calls the installer exactly once if
    it is true and never otherwise.  A run that stops before the end of the
    normalisation never calls the installer. *)
Theorem install_iff_manifest (env : Collab.t) (req : Request) (ex : string)
    (w : World) :
  example req = Some ex →
  ex ≠ EmptyString →
  (∀ repoInfo t w1,
     reachNormalized env req ex w = (Ret (repoInfo, t), w1) →
     let present :=
       bool_decide (is_Some (fs w1 !! path_join (root t) "package.json")) in
     createApp env req w =
       (let! hasPackageJson :=
          installPackages env (root t) (packageManager req) (isOnline t) in
        initAndReport env req t hasPackageJson) w1 ∧
     (∀ hasPackageJson w2,
        installPackages env (root t) (packageManager req) (isOnline t) w1 =
          (Ret hasPackageJson, w2) →
        hasPackageJson = present) ∧
     ∃ evs, trace (createApp env req w).2 = trace w ++ evs ∧
            calls isInstall evs = if present then 1 else 0)
  ∧
  (∀ out w1,
     reachNormalized env req ex w = (out, w1) →
     (∀ p, out ≠ Ret p) →
     ∃ evs, trace (createApp env req w).2 = trace w ++ evs ∧
            calls isInstall evs = 0).
Proof.
  intros Hex Hne.
  pose proof (reachNormalized_no_install env req ex w) as (e1 & Ht1 & Ha1).
  apply calls_none in Ha1.
  pose proof (createApp_via_normalized env req ex w Hex Hne) as Hvia.
  unfold bind at 1 in Hvia.
  split.
  - intros repoInfo t w1 Hreach present.
    rewrite Hreach in Hvia, Ht1. simpl in Hvia, Ht1. rewrite Hvia.
    split; [done|].
    set (pm := packageManager req). set (online := isOnline t).
    destruct (fs w1 !! path_join (root t) "package.json") as [content|] eqn:Hpkg.
    + assert (Hsome : is_Some (fs w1 !! path_join (root t) "package.json"))
        by (rewrite Hpkg; eauto).
      assert (present = true) as -> by (by apply bool_decide_eq_true_2).
      pose proof (installPackages_present env (root t) pm online w1 Hsome)
        as Hrun.
      simpl in Hrun.
      destruct (Collab.install env (root t) pm online (fs w1))
        as [disk' [err|]].
      * split; [intros h w2; rewrite Hrun; discriminate|].
        unfold bind. rewrite Hrun. simpl.
        eexists. rewrite Ht1, <- app_assoc. split; [done|].
        by rewrite calls_app, Ha1.
      * split; [intros h w2; rewrite Hrun; congruence|].
        unfold bind. rewrite Hrun.
        match goal with
        | |- context [initAndReport env req t true ?wi] =>
            destruct (initAndReport_no_install env req t true wi)
              as (e3 & Ht3 & Ha3)
        end.
        apply calls_none in Ha3. rewrite Ht3. simpl trace.
        eexists. rewrite Ht1, <- !app_assoc. split; [done|].
        by rewrite !calls_app, Ha1, Ha3.
    + assert (present = false) as ->
        by (apply bool_decide_eq_false_2; by intros [? ?]).
      pose proof (installPackages_absent env (root t) pm online w1 Hpkg)
        as Hrun.
      split; [intros h w2; rewrite Hrun; congruence|].
      unfold bind. rewrite Hrun.
      match goal with
      | |- context [initAndReport env req t false ?wi] =>
          destruct (initAndReport_no_install env req t false wi)
            as (e3 & Ht3 & Ha3)
      end.
      apply calls_none in Ha3. rewrite Ht3. simpl trace.
      eexists. rewrite Ht1, <- !app_assoc. split; [done|].
      by rewrite !calls_app, Ha1, Ha3.
  - intros out w1 Hreach Hout.
    rewrite Hreach in Hvia, Ht1. simpl in Ht1. rewrite Hvia.
    destruct out as [p|c|r|]; [by destruct (Hout p)|..];
      simpl; exists e1; by rewrite Ht1.
Qed.

(** The theorem on the example [blog], which ships a manifest, on the
    example [plain], which ships none, and on an example that the catalog
    does not know. *)
Lemma install_iff_manifest_witness :
  (∃ evs,
     trace (createApp Sample.env (Sample.request (Some "blog"))
              Sample.world).2 = trace Sample.world ++ evs ∧
     calls isInstall evs = 1) ∧
  (∃ evs,
     trace (createApp Sample.env (Sample.request (Some "plain"))
              Sample.world).2 = trace Sample.world ++ evs ∧
     calls isInstall evs = 0) ∧
  (∃ evs,
     trace (createApp Sample.env (Sample.request (Some "nope"))
              Sample.world).2 = trace Sample.world ++ evs ∧
     calls isInstall evs = 0).
Proof.
  split; [|split].
  - destruct (proj1 (install_iff_manifest Sample.env
                       (Sample.request (Some "blog")) "blog" Sample.world
                       eq_refl ltac:(discriminate))
                None Sample.target
                (reachNormalized Sample.env (Sample.request (Some "blog"))
                   "blog" Sample.world).2)
      as (_ & _ & evs & Htrace & Hcalls); [vm_compute; reflexivity|].
    exists evs. split; [exact Htrace|]. rewrite Hcalls. vm_compute. reflexivity.
  - destruct (proj1 (install_iff_manifest Sample.env
                       (Sample.request (Some "plain")) "plain" Sample.world
                       eq_refl ltac:(discriminate))
                None Sample.target
                (reachNormalized Sample.env (Sample.request (Some "plain"))
                   "plain" Sample.world).2)
      as (_ & _ & evs & Htrace & Hcalls); [vm_compute; reflexivity|].
    exists evs. split; [exact Htrace|]. rewrite Hcalls. vm_compute. reflexivity.
  - apply (proj2 (install_iff_manifest Sample.env
                    (Sample.request (Some "nope")) "nope" Sample.world
                    eq_refl ltac:(discriminate))
             (Exit 1)
             (reachNormalized Sample.env (Sample.request (Some "nope"))
                "nope" Sample.world).2);
      [vm_compute; reflexivity|discriminate].
Defined.

(** C7.  After a successful fetch the next thing [createApp] does is the
    [.gitignore] step.  When the example brought a [.gitignore], the step
    asks whether it exists and changes nothing.  Otherwise it issues
    exactly one copy, from the template's [gitignore] file, and that file's
    content becomes the [.gitignore] of the target directory. *)
Theorem gitignore_normalization (env : Collab.t) (req : Request) (ex : string)
    (repoInfo : option RepoInfo) (t : Target) (w0 w : World) :
  example req = Some ex →
  ex ≠ EmptyString →
  fetchExample env (root t) ex repoInfo w0 = (Ret tt, w) →
  let ignorePath := path_join (root t) ".gitignore" in
  let source :=
    Collab.getTemplateFile env (templateOf req) (modeOf req) "gitignore" in
  let step := copyGitignore env (root t) (templateOf req) (modeOf req) in
  cloneOrTemplate env req repoInfo t w0 =
    (step >>
     copyNextEnv env (root t) (templateOf req) >>
     installPackages env (root t) (packageManager req) (isOnline t)) w
  ∧
  (is_Some (fs w !! ignorePath) →
     step w =
     (Ret tt,
      mkWorld (fs w) (cwd w) (transportCalls w)
        (trace w ++ [EvExistsSync ignorePath]) (console w)))
  ∧
  (fs w !! ignorePath = None →
     (∃ evs, trace (step w).2 = trace w ++ evs ∧
             List.filter isCopy evs = [EvCopyFile source ignorePath]) ∧
     ∀ content, fs w !! source = Some content →
       step w =
       (Ret tt,
        mkWorld (<[ignorePath := content]> (fs w)) (cwd w) (transportCalls w)
          (trace w ++ [EvExistsSync ignorePath; EvCopyFile source ignorePath])
          (console w))).
Proof.
  intros Hex Hne Hfetch ignorePath source step. split; [|split].
  - rewrite (cloneOrTemplate_example env req ex) by done.
    unfold bind at 1. by rewrite Hfetch.
  - apply copyGitignore_present.
  - intros Habsent.
    pose proof (copyGitignore_absent env (root t) (templateOf req) (modeOf req)
                  w Habsent) as Hrun.
    simpl in Hrun. fold ignorePath source step in Hrun. split.
    + exists [EvExistsSync ignorePath; EvCopyFile source ignorePath].
      rewrite Hrun. by destruct (fs w !! source).
    + intros content Hsource. by rewrite Hrun, Hsource.
Qed.

(** The theorem on the example [blog], which ships no [.gitignore], and
    on the example [docs], which ships one. *)
Lemma gitignore_normalization_witness :
  let ignorePath := "/work/my-app/.gitignore" in
  let source := "/pkg/templates/default/js/gitignore" in
  let blog :=
    (fetchExample Sample.env "/work/my-app" "blog" None Sample.prepared).2 in
  let docs :=
    (fetchExample Sample.env "/work/my-app" "docs" None Sample.prepared).2 in
  copyGitignore Sample.env "/work/my-app" tpl_default js blog =
    (Ret tt,
     mkWorld (<[ignorePath := "node_modules"]> (fs blog)) (cwd blog)
       (transportCalls blog)
       (trace blog ++ [EvExistsSync ignorePath; EvCopyFile source ignorePath])
       (console blog)) ∧
  copyGitignore Sample.env "/work/my-app" tpl_default js docs =
    (Ret tt,
     mkWorld (fs docs) (cwd docs) (transportCalls docs)
       (trace docs ++ [EvExistsSync ignorePath]) (console docs)).
Proof.
  intros ignorePath source blog docs. split.
  - apply (proj2 (proj2 (gitignore_normalization Sample.env
                           (Sample.request (Some "blog")) "blog" None
                           Sample.target Sample.prepared blog eq_refl
                           ltac:(discriminate)
                           ltac:(vm_compute; reflexivity))));
      vm_compute; reflexivity.
  - apply (proj1 (proj2 (gitignore_normalization Sample.env
                           (Sample.request (Some "docs")) "docs" None
                           Sample.target Sample.prepared docs eq_refl
                           ltac:(discriminate)
                           ltac:(vm_compute; reflexivity)))).
    vm_compute. eauto.
Defined.

(** C6.  After a successful fetch and the [.gitignore] step, [createApp]
    goes on with the [next-env.d.ts] step.  The step issues a copy into
    the target directory exactly when [tsconfig.json] is there after the
    fetch, and the source of that copy is the template file of mode [ts],
    whatever the request's [typescript] flag says.  Without
    [tsconfig.json] the disk is left as it is; with it, the content of the
    [ts] template file becomes the content of [next-env.d.ts]. *)
Theorem next_env_iff_tsconfig (env : Collab.t) (req : Request) (ex : string)
    (repoInfo : option RepoInfo) (t : Target) (w0 w w2 : World) :
  example req = Some ex →
  ex ≠ EmptyString →
  fetchExample env (root t) ex repoInfo w0 = (Ret tt, w) →
  copyGitignore env (root t) (templateOf req) (modeOf req) w = (Ret tt, w2) →
  let tsconfigPath := path_join (root t) "tsconfig.json" in
  let nextEnv := path_join (root t) "next-env.d.ts" in
  let source :=
    Collab.getTemplateFile env (templateOf req) ts "next-env.d.ts" in
  let step := copyNextEnv env (root t) (templateOf req) in
  cloneOrTemplate env req repoInfo t w0 =
    (step >>
     installPackages env (root t) (packageManager req) (isOnline t)) w2
  ∧
  fs w2 !! tsconfigPath = fs w !! tsconfigPath
  ∧
  trace (step w2).2 =
    trace w2 ++
    EvExistsSync tsconfigPath ::
    (if bool_decide (is_Some (fs w !! tsconfigPath))
     then [EvCopyFile source nextEnv] else [])
  ∧
  (fs w !! tsconfigPath = None →
     step w2 =
     (Ret tt,
      mkWorld (fs w2) (cwd w2) (transportCalls w2)
        (trace w2 ++ [EvExistsSync tsconfigPath]) (console w2)))
  ∧
  (is_Some (fs w !! tsconfigPath) →
     ∀ content, fs w2 !! source = Some content →
       step w2 =
       (Ret tt,
        mkWorld (<[nextEnv := content]> (fs w2)) (cwd w2) (transportCalls w2)
          (trace w2 ++ [EvExistsSync tsconfigPath; EvCopyFile source nextEnv])
          (console w2))).
Proof.
  intros Hex Hne Hfetch Hgit tsconfigPath nextEnv source step.
  assert (Hsame : fs w2 !! tsconfigPath = fs w !! tsconfigPath)
    by (by apply (copyGitignore_keeps_others env _ _ _ _ _ _ Hgit)).
  split; [|split; [exact Hsame|]].
  { rewrite (cloneOrTemplate_example env req ex) by done.
    unfold bind at 1. rewrite Hfetch. unfold bind at 1. by rewrite Hgit. }
  destruct (fs w !! tsconfigPath) as [config|] eqn:Hts.
  - assert (Hsome : is_Some (fs w2 !! path_join (root t) "tsconfig.json"))
      by (fold tsconfigPath; rewrite Hsame; eauto).
    pose proof (copyNextEnv_present env (root t) (templateOf req) w2 Hsome)
      as Hrun.
    simpl in Hrun. fold tsconfigPath nextEnv source step in Hrun.
    rewrite bool_decide_eq_true_2 by eauto.
    split; [|split; [done|]].
    + rewrite Hrun. by destruct (fs w2 !! source).
    + intros _ content Hsource. by rewrite Hrun, Hsource.
  - assert (Hnone : fs w2 !! path_join (root t) "tsconfig.json" = None)
      by (fold tsconfigPath; by rewrite Hsame).
    pose proof (copyNextEnv_absent env (root t) (templateOf req) w2 Hnone)
      as Hrun.
    fold tsconfigPath step in Hrun.
    rewrite bool_decide_eq_false_2 by (by intros [? ?]).
    split; [by rewrite Hrun|]. split; [done|].
    by intros [? ?].
Qed.

(** The theorem on the example [blog], fetched for a JavaScript request:
    it ships [tsconfig.json], so [next-env.d.ts] is copied from the [ts]
    template; and on the example [plain], which has no [tsconfig.json]. *)
Lemma next_env_iff_tsconfig_witness :
  let source := "/pkg/templates/default/ts/next-env.d.ts" in
  let tsconfigPath := "/work/my-app/tsconfig.json" in
  let nextEnv := "/work/my-app/next-env.d.ts" in
  let normalized example :=
    (copyGitignore Sample.env "/work/my-app" tpl_default js
       (fetchExample Sample.env "/work/my-app" example None
          Sample.prepared).2).2 in
  typescript (Sample.request (Some "blog")) = false ∧
  trace (copyNextEnv Sample.env "/work/my-app" tpl_default
           (normalized "blog")).2 =
    trace (normalized "blog") ++
    [EvExistsSync tsconfigPath; EvCopyFile source nextEnv] ∧
  trace (copyNextEnv Sample.env "/work/my-app" tpl_default
           (normalized "plain")).2 =
    trace (normalized "plain") ++ [EvExistsSync tsconfigPath].
Proof.
  intros source tsconfigPath nextEnv normalized.
  split; [reflexivity|]. split.
  - pose proof (proj1 (proj2 (proj2
        (next_env_iff_tsconfig Sample.env (Sample.request (Some "blog"))
           "blog" None Sample.target Sample.prepared
           (fetchExample Sample.env "/work/my-app" "blog" None
              Sample.prepared).2
           (normalized "blog") eq_refl ltac:(discriminate)
           ltac:(vm_compute; reflexivity) ltac:(vm_compute; reflexivity)))))
      as H.
    refine (eq_trans H _). vm_compute. reflexivity.
  - pose proof (proj1 (proj2 (proj2
        (next_env_iff_tsconfig Sample.env (Sample.request (Some "plain"))
           "plain" None Sample.target Sample.prepared
           (fetchExample Sample.env "/work/my-app" "plain" None
              Sample.prepared).2
           (normalized "plain") eq_refl ltac:(discriminate)
           ltac:(vm_compute; reflexivity) ltac:(vm_compute; reflexivity)))))
      as H.
    refine (eq_trans H _). vm_compute. reflexivity.
Defined.

(** C9.  When [tsconfig.json] is present after the fetch, the copy of
    [next-env.d.ts] is made whether or not the example shipped that file:
    afterwards the file holds the content of the [ts] template file,
    whatever it held before.  A [.gitignore] that the example shipped is
    left as it was, by both normalisation steps. *)
Theorem next_env_is_overwritten (env : Collab.t) (req : Request) (ex : string)
    (repoInfo : option RepoInfo) (t : Target) (w0 w w2 : World)
    (fresh : string) :
  example req = Some ex →
  ex ≠ EmptyString →
  fetchExample env (root t) ex repoInfo w0 = (Ret tt, w) →
  copyGitignore env (root t) (templateOf req) (modeOf req) w = (Ret tt, w2) →
  let ignorePath := path_join (root t) ".gitignore" in
  let nextEnv := path_join (root t) "next-env.d.ts" in
  let source :=
    Collab.getTemplateFile env (templateOf req) ts "next-env.d.ts" in
  is_Some (fs w !! path_join (root t) "tsconfig.json") →
  fs w2 !! source = Some fresh →
  ∃ w3,
    copyNextEnv env (root t) (templateOf req) w2 = (Ret tt, w3) ∧
    fs w3 = <[nextEnv := fresh]> (fs w2) ∧
    fs w3 !! nextEnv = Some fresh ∧
    (∀ kept, fs w !! ignorePath = Some kept →
       fs w2 = fs w ∧ fs w3 !! ignorePath = Some kept).
Proof.
  intros Hex Hne Hfetch Hgit ignorePath nextEnv source Hts Hsource.
  assert (Hsome : is_Some (fs w2 !! path_join (root t) "tsconfig.json")).
  { by rewrite (copyGitignore_keeps_others env _ _ _ _ _ _ Hgit). }
  pose proof (copyNextEnv_present env (root t) (templateOf req) w2 Hsome)
    as Hrun.
  simpl in Hrun. fold nextEnv source in Hrun. rewrite Hsource in Hrun.
  eexists. split; [exact Hrun|]. simpl.
  split; [done|]. split; [apply lookup_insert_eq|].
  intros kept Hkept.
  rewrite copyGitignore_present in Hgit
    by (fold ignorePath; rewrite Hkept; eauto).
  inversion Hgit; subst; simpl. split; [done|].
  rewrite lookup_insert_ne; [done|].
  intros Heq. by apply path_join_inj in Heq.
Qed.

(** The theorem on the example [docs], which ships a stale [next-env.d.ts]
    and a [.gitignore] of its own. *)
Lemma next_env_is_overwritten_witness :
  let w := (fetchExample Sample.env "/work/my-app" "docs" None
              Sample.prepared).2 in
  let w2 := (copyGitignore Sample.env "/work/my-app" tpl_default js w).2 in
  fs w !! "/work/my-app/next-env.d.ts" = Some "stale" ∧
  fs w !! "/work/my-app/.gitignore" = Some "dist" ∧
  ∃ w3,
    copyNextEnv Sample.env "/work/my-app" tpl_default w2 = (Ret tt, w3) ∧
    fs w3 !! "/work/my-app/next-env.d.ts" = Some "/// next types" ∧
    fs w3 !! "/work/my-app/.gitignore" = Some "dist".
Proof.
  intros w w2.
  split; [vm_compute; reflexivity|]. split; [vm_compute; reflexivity|].
  destruct (next_env_is_overwritten Sample.env (Sample.request (Some "docs"))
              "docs" None Sample.target Sample.prepared w w2 "/// next types"
              eq_refl ltac:(discriminate)
              ltac:(vm_compute; reflexivity) ltac:(vm_compute; reflexivity)
              ltac:(vm_compute; eauto) ltac:(vm_compute; reflexivity))
    as (w3 & Hrun & _ & Hnext & Hkept).
  exists w3. split; [exact Hrun|]. split; [exact Hnext|].
  apply (Hkept "dist"). vm_compute. reflexivity.
Defined.

(** ** Calls, messages and exit codes together *)

Section Behaviour.

Context (env : Collab.t).
Context (P : Event → Prop) (Q : Message → Prop) (E : Z → Prop).

Lemma behaves_quiet {A} (m : M A) :
  (∀ w, trace (m w).2 = trace w ∧ console (m w).2 = console w ∧
        ∀ code, (m w).1 ≠ Exit code) →
  behaves P Q E m.
Proof.
  intros Hm w. destruct (Hm w) as (Ht & Hc & He). split; [|split].
  - exists []. by rewrite app_nil_r.
  - exists []. by rewrite app_nil_r.
  - intros code H. by destruct (He code).
Qed.

Lemma behaves_bind {A B} (m : M A) (f : A → M B) :
  behaves P Q E m → (∀ a, behaves P Q E (f a)) → behaves P Q E (bind m f).
Proof.
  intros Hm Hf w. unfold bind.
  destruct (Hm w) as ((e1 & Ht1 & Ha1) & (m1 & Hc1 & Hq1) & He1).
  destruct (m w) as [[a|c|r|] w'] eqn:Hrun; simpl in *.
  - destruct (Hf a w') as ((e2 & Ht2 & Ha2) & (m2 & Hc2 & Hq2) & He2).
    split; [|split; [|done]].
    + exists (e1 ++ e2). rewrite Ht2, Ht1, app_assoc.
      split; [done|by apply Forall_app_2].
    + exists (m1 ++ m2). rewrite Hc2, Hc1, app_assoc.
      split; [done|by apply Forall_app_2].
  - split; [eauto|]. split; [eauto|]. first [done|intros code [= <-]; by apply He1].
  - split; [eauto|]. split; [eauto|]. first [done|intros code [= <-]; by apply He1].
  - split; [eauto|]. split; [eauto|]. first [done|intros code [= <-]; by apply He1].
Qed.

Lemma behaves_ret {A} (a : A) : behaves P Q E (ret a).
Proof. apply behaves_quiet. intros w. by repeat split. Qed.

Lemma behaves_emit ev : P ev → behaves P Q E (emit ev).
Proof.
  intros Hev w. split; [|split; [|done]].
  - exists [ev]. split; [done|by constructor].
  - exists []. by rewrite app_nil_r.
Qed.

Lemma behaves_print msg : Q msg → behaves P Q E (print msg).
Proof.
  intros Hmsg w. split; [|split; [|done]].
  - exists []. by rewrite app_nil_r.
  - exists [msg]. split; [done|by constructor].
Qed.

Lemma behaves_process_exit {A} code :
  E code → behaves P Q E (@process_exit A code).
Proof.
  intros Hcode w. split; [|split].
  - exists []. by rewrite app_nil_r.
  - exists []. by rewrite app_nil_r.
  - simpl. intros c [= <-]. done.
Qed.

Lemma behaves_getFs : behaves P Q E getFs.
Proof. apply behaves_quiet. intros w. by repeat split. Qed.

Lemma behaves_putFs disk : behaves P Q E (putFs disk).
Proof. apply behaves_quiet. intros w. by repeat split. Qed.

Lemma behaves_process_cwd : behaves P Q E process_cwd.
Proof. apply behaves_quiet. intros w. by repeat split. Qed.

Lemma behaves_setCwd dir : behaves P Q E (setCwd dir).
Proof. apply behaves_quiet. intros w. by repeat split. Qed.

Lemma behaves_nextTransportCall : behaves P Q E nextTransportCall.
Proof. apply behaves_quiet. intros w. by repeat split. Qed.

Lemma behaves_throw {A} reason : behaves P Q E (@throw A reason).
Proof. apply behaves_quiet. intros w. by repeat split. Qed.

Lemma behaves_settle r : behaves P Q E (settle r).
Proof. destruct r; apply behaves_quiet; intros w; by repeat split. Qed.

Lemma behaves_tryCatch {A} (body : M A) (handler : Thrown → M A) :
  behaves P Q E body → (∀ r, behaves P Q E (handler r)) →
  behaves P Q E (tryCatch body handler).
Proof.
  intros Hb Hh w. unfold tryCatch.
  destruct (Hb w) as ((e1 & Ht1 & Ha1) & (m1 & Hc1 & Hq1) & He1).
  destruct (body w) as [[a|c|r|] w'] eqn:Hrun; simpl in *.
  - split; [eauto|]. split; [eauto|]. first [done|intros code [= <-]; by apply He1].
  - split; [eauto|]. split; [eauto|]. first [done|intros code [= <-]; by apply He1].
  - destruct (Hh r w') as ((e2 & Ht2 & Ha2) & (m2 & Hc2 & Hq2) & He2).
    split; [|split; [|done]].
    + exists (e1 ++ e2). rewrite Ht2, Ht1, app_assoc.
      split; [done|by apply Forall_app_2].
    + exists (m1 ++ m2). rewrite Hc2, Hc1, app_assoc.
      split; [done|by apply Forall_app_2].
  - split; [eauto|]. split; [eauto|]. first [done|intros code [= <-]; by apply He1].
Qed.

Lemma behaves_attempt {A} (fn : M A) timeouts errors :
  behaves P Q E fn → behaves P Q E (attempt fn timeouts errors).
Proof.
  intros Hfn. revert errors.
  induction timeouts as [|n IH]; intros errors w; simpl;
    destruct (Hfn w) as ((e1 & Ht1 & Ha1) & (m1 & Hc1 & Hq1) & He1);
    destruct (fn w) as [[a|c|r|] w'] eqn:Hrun; simpl in *;
    try destruct (isNullish r); try destruct (hasBail r);
    try destruct (isTruthy r);
    try (split; [eauto|]; split; [eauto|]; first [done|intros code [= <-]; by apply He1]).
  destruct (IH (errors ++ [r]) w')
    as ((e2 & Ht2 & Ha2) & (m2 & Hc2 & Hq2) & He2).
  split; [|split; [|done]].
  - exists (e1 ++ e2). rewrite Ht2, Ht1, app_assoc.
    split; [done|by apply Forall_app_2].
  - exists (m1 ++ m2). rewrite Hc2, Hc1, app_assoc.
    split; [done|by apply Forall_app_2].
Qed.

Lemma behaves_retry {A} (fn : M A) retries :
  behaves P Q E fn → behaves P Q E (retry fn retries).
Proof. apply behaves_attempt. Qed.

End Behaviour.

Ltac behaves_step :=
  match goal with
  | |- behaves _ _ _ (bind _ _) => apply behaves_bind; [| intros ?]
  | |- behaves _ _ _ (ret _) => apply behaves_ret
  | |- behaves _ _ _ (emit _) => apply behaves_emit
  | |- behaves _ _ _ (print _) => apply behaves_print
  | |- behaves _ _ _ getFs => apply behaves_getFs
  | |- behaves _ _ _ (putFs _) => apply behaves_putFs
  | |- behaves _ _ _ process_cwd => apply behaves_process_cwd
  | |- behaves _ _ _ (setCwd _) => apply behaves_setCwd
  | |- behaves _ _ _ nextTransportCall => apply behaves_nextTransportCall
  | |- behaves _ _ _ (process_exit _) => apply behaves_process_exit
  | |- behaves _ _ _ (throw _) => apply behaves_throw
  | |- behaves _ _ _ (settle _) => apply behaves_settle
  | |- behaves _ _ _ (tryCatch _ _) => apply behaves_tryCatch; [| intros ?]
  | |- behaves _ _ _ (retry _ _) => apply behaves_retry
  | |- behaves _ _ _ (when ?c _) => destruct c; unfold when
  | |- behaves _ _ _ (if ?c then _ else _) => destruct c
  | |- behaves _ _ _ (match ?x with _ => _ end) => destruct x
  end.

Ltac behaves_run :=
  repeat (progress (unfold_blocks; repeat behaves_step)); try done.

(** ** The end of the run: git and the report *)

Section Reporting.

Context (env : Collab.t).

Lemma said_app kind m1 m2 : said kind (m1 ++ m2) = said kind m1 + said kind m2.
Proof. unfold said. by rewrite List.filter_app, length_app. Qed.

Lemma said_none kind msgs :
  Forall (λ msg, kind msg = false) msgs → said kind msgs = 0.
Proof.
  unfold said. induction 1 as [|msg msgs Hmsg _ IH]; [done|].
  simpl. by rewrite Hmsg.
Qed.

Lemma ifExample_falsy {A} example (thenBranch : string → M A) elseBranch :
  truthy example = false → ifExample example thenBranch elseBranch = elseBranch.
Proof. intros H. unfold ifExample. destruct example; [by rewrite H|done]. Qed.

(** [createApp] is the run up to line 220 followed by lines 222-255. *)
Lemma createApp_via_report req w :
  createApp env req w =
  (let! p := reachReport env req in initAndReport env req p.1 p.2) w.
Proof.
  unfold createApp, reachReport, bind.
  destruct (resolveExample env req w) as [[repoInfo|c|r|] w1]; [|done..].
  destruct (prepareDirectory env req w1) as [[t|c|r|] w2]; [|done..].
  by destruct (cloneOrTemplate env req repoInfo t w2) as [[h|c|r|] w3].
Qed.

(** Lines 222-255 always come to their end. *)
Lemma initAndReport_run req t hasPackageJson w :
  let git := Collab.tryGitInit env (root t) (fs w) in
  initAndReport env req t hasPackageJson w =
  (Ret tt,
   mkWorld git.1 (cwd w) (transportCalls w) (trace w ++ [EvGitInit (root t)])
     (console w ++ reported req t hasPackageJson git.2)).
Proof.
  unfold initAndReport, tryGitInit, reported, bind, emit, getFs, putFs, ret,
    print, when. simpl.
  destruct (Collab.tryGitInit env (root t) (fs w)) as [disk' [|]]; simpl;
    destruct hasPackageJson; simpl; rewrite <- ?app_assoc; reflexivity.
Qed.

Lemma said_success_reported req t hasPackageJson initialized :
  said isSuccess (reported req t hasPackageJson initialized) = 1.
Proof. by destruct hasPackageJson, initialized. Qed.

Lemma said_instructions_reported req t hasPackageJson initialized :
  said isInstructions (reported req t hasPackageJson initialized) =
  if hasPackageJson then 1 else 0.
Proof. by destruct hasPackageJson, initialized. Qed.

Lemma reachReport_behaves req :
  behaves (λ _, True)
    (λ msg, isSuccess msg = false ∧ isInstructions msg = false)
    (λ code, code = 1%Z) (reachReport env req).
Proof. unfold reachReport. behaves_run. Qed.

End Reporting.

(** X1.  Once line 220 is reached, that is once the resolution, the
    preparation of the target directory and then either the fetch, the
    normalisation and the gated installation of the example or the
    installation of the template have all returned, the run always
    returns: [tryGitInit] is called exactly once, a false answer from it is
    not an error, the git line is printed exactly when it answers true, and
    the report follows. *)
Theorem run_completes_after_fetch (env : Collab.t) (req : Request) (w : World)
    (t : Target) (hasPackageJson : bool) (w3 : World) :
  reachReport env req w = (Ret (t, hasPackageJson), w3) →
  let git := Collab.tryGitInit env (root t) (fs w3) in
  createApp env req w =
  (Ret tt,
   mkWorld git.1 (cwd w3) (transportCalls w3)
     (trace w3 ++ [EvGitInit (root t)])
     (console w3 ++ reported req t hasPackageJson git.2)) ∧
  (MsgGitInitialized ∈ reported req t hasPackageJson git.2 ↔ git.2 = true).
Proof.
  intros Hreach git. split.
  - rewrite createApp_via_report. unfold bind. rewrite Hreach.
    apply initAndReport_run.
  - unfold reported. destruct git.2, hasPackageJson; simpl; split;
      intros H; try done; try (by left);
      repeat (apply elem_of_cons in H as [H|H]; [discriminate|]);
      by apply elem_of_nil in H.
Qed.

(** The theorem on the example [plain] when git fails, and on the example
    [blog] created as [/my-app] from the root directory, where the report
    names the directory to change to by its base name. *)
Lemma run_completes_after_fetch_witness :
  (let env := Scenario.variant None true true None false in
   let req := Sample.request (Some "plain") in
   let w3 := (reachReport env req Sample.world).2 in
   createApp env req Sample.world =
   (Ret tt,
    mkWorld (fs w3) (cwd w3) (transportCalls w3)
      (trace w3 ++ [EvGitInit "/work/my-app"])
      (console w3 ++ [MsgSuccess "my-app" "/work/my-app"; MsgBlank]))) ∧
  (let req := Scenario.rootRequest (Some "blog") in
   let w3 := (reachReport Scenario.fromRoot req Scenario.rootWorld).2 in
   createApp Scenario.fromRoot req Scenario.rootWorld =
   (Ret tt,
    mkWorld (fs w3) (cwd w3) (transportCalls w3)
      (trace w3 ++ [EvGitInit "/my-app"])
      (console w3 ++
       [MsgGitInitialized; MsgBlank; MsgSuccess "my-app" "/my-app";
        MsgRunInstructions npm false "my-app"; MsgBlank]))).
Proof.
  split.
  - intros env req w3.
    refine (eq_trans
              (proj1 (run_completes_after_fetch env req Sample.world
                        Sample.target false w3 ltac:(vm_compute; reflexivity)))
              _).
    vm_compute. reflexivity.
  - intros req w3.
    refine (eq_trans
              (proj1 (run_completes_after_fetch Scenario.fromRoot req
                        Scenario.rootWorld
                        (mkTarget "/my-app" "my-app" true "/") true w3
                        ltac:(vm_compute; reflexivity)))
              _).
    vm_compute. reflexivity.
Defined.

(** X2.  The success line is printed exactly once by a run that returns,
    and never by a run that exits or throws. *)
Theorem success_iff_completed (env : Collab.t) (req : Request) (w : World) :
  ∃ msgs,
    console (createApp env req w).2 = console w ++ msgs ∧
    said isSuccess msgs =
      match (createApp env req w).1 with
      | Ret _ => 1
      | _ => 0
      end.
Proof.
  destruct (reachReport_behaves env req w) as (_ & (m1 & Hc1 & Hq1) & _).
  assert (H1 : said isSuccess m1 = 0).
  { apply said_none. eapply Forall_impl; [exact Hq1|]. by intros msg [? _]. }
  rewrite createApp_via_report. unfold bind.
  destruct (reachReport env req w) as [[[t h]|c|r|] w3]; simpl in *.
  - rewrite initAndReport_run. simpl.
    exists (m1 ++ reported req t h (Collab.tryGitInit env (root t) (fs w3)).2).
    rewrite Hc1, <- app_assoc. split; [done|].
    by rewrite said_app, H1, said_success_reported.
  - by exists m1.
  - by exists m1.
  - by exists m1.
Qed.

(** X3.  The commands to run are printed exactly once when the run returns
    with [hasPackageJson] set, and never otherwise. *)
Theorem instructions_iff_manifest_flag (env : Collab.t) (req : Request)
    (w : World) :
  ∃ msgs,
    console (createApp env req w).2 = console w ++ msgs ∧
    said isInstructions msgs =
      match (reachReport env req w).1 with
      | Ret (_, true) => 1
      | _ => 0
      end.
Proof.
  destruct (reachReport_behaves env req w) as (_ & (m1 & Hc1 & Hq1) & _).
  assert (H1 : said isInstructions m1 = 0).
  { apply said_none. eapply Forall_impl; [exact Hq1|]. by intros msg [_ ?]. }
  rewrite createApp_via_report. unfold bind.
  destruct (reachReport env req w) as [[[t h]|c|r|] w3]; simpl in *.
  - rewrite initAndReport_run. simpl.
    exists (m1 ++ reported req t h (Collab.tryGitInit env (root t) (fs w3)).2).
    rewrite Hc1, <- app_assoc. split; [done|].
    rewrite said_app, H1, said_instructions_reported. by destruct h.
  - by exists m1.
  - by exists m1.
  - by exists m1.
Qed.

(** X4.  Whenever [createApp] leaves through [process.exit], the code is 1. *)
Theorem every_exit_has_code_one (env : Collab.t) (req : Request) (w : World)
    (code : Z) :
  (createApp env req w).1 = Exit code → code = 1%Z.
Proof.
  assert (H : behaves (λ _, True) (λ _, True) (λ c, c = 1%Z)
                (createApp env req)) by (unfold createApp; behaves_run).
  apply H.
Qed.

(** The theorem on a request for an example that the catalog lacks. *)
Lemma every_exit_has_code_one_witness :
  (createApp Sample.env (Sample.request (Some "nope")) Sample.world).1 =
    Exit 1.
Proof.
  assert (H : ∃ code,
            (createApp Sample.env (Sample.request (Some "nope"))
               Sample.world).1 = Exit code)
    by (eexists; vm_compute; reflexivity).
  destruct H as [code H]. rewrite H. f_equal.
  exact (every_exit_has_code_one Sample.env (Sample.request (Some "nope"))
           Sample.world code H).
Defined.

(** ** The paths through the run *)

Section Paths.

Context (env : Collab.t).

Lemma installTemplate_run appName root template mode pm online w :
  let made :=
    Collab.installTemplate env appName root template mode pm online (fs w) in
  installTemplate env appName root template mode pm online w =
  (match made.2 with
   | Some err => Throw err
   | None => Ret tt
   end,
   mkWorld made.1 (cwd w) (transportCalls w)
     (trace w ++ [EvInstallTemplate appName root template mode pm online])
     (console w)).
Proof.
  unfold installTemplate, bind, emit, getFs, putFs, settle. simpl.
  by destruct (Collab.installTemplate env _ _ _ _ _ _ _) as [disk' [err|]].
Qed.

Lemma resolveExample_falsy req w :
  truthy (example req) = false → resolveExample env req w = (Ret None, w).
Proof. intros H. unfold resolveExample. by rewrite ifExample_falsy. Qed.

Lemma cloneOrTemplate_falsy req repoInfo t :
  truthy (example req) = false →
  cloneOrTemplate env req repoInfo t =
  (installTemplate env (appName t) (root t) (templateOf req) (modeOf req)
     (packageManager req) (isOnline t) >>
   ret false).
Proof. intros H. unfold cloneOrTemplate. by rewrite ifExample_falsy. Qed.

Lemma prepareDirectory_behaves req :
  behaves (λ ev, onExamplePath ev = false ∧ isMaterialize ev = false)
    (λ msg, isInstructions msg = false) (λ _, True)
    (prepareDirectory env req).
Proof. behaves_run. Qed.

(** What lines 111-137 do, case by case. *)
Lemma prepareDirectory_run req w :
  let root := Collab.path_resolve env (cwd w) (appPath req) in
  let dir := Collab.path_dirname env root in
  let appName := Collab.path_basename env root in
  let created := Collab.makeDir env root (fs w) in
  let online := isOnlineFor env req in
  let probe := if decide (packageManager req = yarn) then [EvGetOnline] else [] in
  prepareDirectory env req w =
  if Collab.isWriteable env dir (fs w) then
    if Collab.isFolderEmpty env root appName created then
      (Ret (mkTarget root appName online (cwd w)),
       mkWorld created root (transportCalls w)
         (trace w ++ [EvIsWriteable dir; EvMakeDir root;
                      EvIsFolderEmpty root appName] ++ probe ++ [EvChdir root])
         (console w ++ [MsgCreating root; MsgBlank]))
    else
      (Exit 1,
       mkWorld created (cwd w) (transportCalls w)
         (trace w ++ [EvIsWriteable dir; EvMakeDir root;
                      EvIsFolderEmpty root appName])
         (console w))
  else
    (Exit 1,
     mkWorld (fs w) (cwd w) (transportCalls w) (trace w ++ [EvIsWriteable dir])
       (console w ++ [MsgNotWritable; MsgNoWritePermission])).
Proof.
  intros root dir appName created online probe.
  unfold prepareDirectory, isWriteable, makeDir, isFolderEmpty, getOnline,
    process_chdir, bind, emit, getFs, putFs, process_cwd, setCwd, print, ret,
    when, process_exit.
  simpl. fold root dir appName.
  destruct (Collab.isWriteable env dir (fs w)); simpl;
    [|by rewrite <- app_assoc].
  fold created.
  destruct (Collab.isFolderEmpty env root appName created); simpl;
    [|by rewrite <- !app_assoc].
  subst online probe. unfold isOnlineFor.
  destruct (decide (packageManager req = yarn)) as [Hyarn|Hyarn].
  - rewrite bool_decide_eq_true_2 by done. simpl.
    by rewrite <- !app_assoc.
  - rewrite bool_decide_eq_false_2 by done. simpl.
    by rewrite <- !app_assoc.
Qed.

(** Without an example, lines 31-256 are the preparation of the target
    directory, the template installer and the report, in this order. *)
Lemma createApp_falsy req w :
  truthy (example req) = false →
  createApp env req w =
  (let! t := prepareDirectory env req in
   installTemplate env (appName t) (root t) (templateOf req) (modeOf req)
     (packageManager req) (isOnline t) >>
   initAndReport env req t false) w.
Proof.
  intros Hfalsy. unfold createApp, bind. rewrite resolveExample_falsy by done.
  destruct (prepareDirectory env req w) as [[t|c|r|] w2]; [|done..].
  rewrite cloneOrTemplate_falsy by done. unfold bind.
  by destruct (installTemplate env _ _ _ _ _ _ w2) as [[[]|c|r|] w3].
Qed.

(** What a run without an example calls and prints. *)
Lemma template_run req w :
  truthy (example req) = false →
  ∃ evs msgs,
    trace (createApp env req w).2 = trace w ++ evs ∧
    console (createApp env req w).2 = console w ++ msgs ∧
    Forall (λ ev, onExamplePath ev = false) evs ∧
    calls isMaterialize evs =
      match (prepareDirectory env req w).1 with
      | Ret _ => 1
      | _ => 0
      end ∧
    said isInstructions msgs = 0.
Proof.
  intros Hfalsy.
  destruct (prepareDirectory_behaves req w)
    as ((e1 & Ht1 & Ha1) & (m1 & Hc1 & Hq1) & _).
  assert (He1 : Forall (λ ev, onExamplePath ev = false) e1)
    by (eapply Forall_impl; [exact Ha1|]; by intros ev [? _]).
  assert (Hm1 : calls isMaterialize e1 = 0).
  { apply calls_none. eapply Forall_impl; [exact Ha1|]. by intros ev [_ ?]. }
  apply said_none in Hq1.
  unfold createApp, bind. rewrite resolveExample_falsy by done.
  destruct (prepareDirectory env req w) as [[t|c|r|] w2]; simpl in *;
    [|exists e1, m1; by rewrite Ht1, Hc1..].
  rewrite cloneOrTemplate_falsy by done. unfold bind.
  rewrite installTemplate_run. simpl.
  destruct (Collab.installTemplate env _ _ _ _ _ _ _).2 as [err|]; simpl.
  - eexists (e1 ++ [_]), m1. rewrite Ht1, Hc1, <- app_assoc.
    split; [done|]. split; [done|]. split.
    + apply Forall_app_2; [done|]. by constructor.
    + by rewrite calls_app, Hm1.
  - unfold ret. rewrite initAndReport_run. simpl.
    eexists (e1 ++ [_; _]), (m1 ++ _). rewrite Ht1, Hc1, <- !app_assoc.
    split; [done|]. split; [done|]. split; [|split].
    + apply Forall_app_2; [done|]. by repeat constructor.
    + by rewrite calls_app, Hm1.
    + by rewrite said_app, Hq1, said_instructions_reported.
Qed.

End Paths.

(** C10.  A request whose [example] is the empty string runs exactly as the
    same request without an example: the resolution does nothing, the
    template is installed instead of a clone, the run is the preparation of
    the target directory followed by the template installer and the report,
    no call of the run belongs to the example path (resolution, fetch,
    normalisation, gated installation), and the template installer is
    called exactly once if the target directory could be prepared. *)
Theorem empty_example_is_no_example (env : Collab.t) (req : Request)
    (w : World) :
  let empty := withExample req (Some EmptyString) in
  createApp env empty w = createApp env (withExample req None) w ∧
  resolveExample env empty w = (Ret None, w) ∧
  (∀ repoInfo t,
     cloneOrTemplate env empty repoInfo t =
     (installTemplate env (appName t) (root t) (templateOf req) (modeOf req)
        (packageManager req) (isOnline t) >>
      ret false)) ∧
  createApp env empty w =
    (let! t := prepareDirectory env empty in
     installTemplate env (appName t) (root t) (templateOf req) (modeOf req)
       (packageManager req) (isOnline t) >>
     initAndReport env empty t false) w ∧
  ∃ evs, trace (createApp env empty w).2 = trace w ++ evs ∧
         Forall (λ ev, onExamplePath ev = false) evs ∧
         calls isMaterialize evs =
           match (prepareDirectory env empty w).1 with
           | Ret _ => 1
           | _ => 0
           end.
Proof.
  intros empty. split; [reflexivity|]. split; [reflexivity|].
  split; [reflexivity|]. split; [by apply (createApp_falsy env empty w)|].
  destruct (template_run env empty w eq_refl)
    as (evs & msgs & Htrace & _ & Hall & Hcalls & _).
  by exists evs.
Qed.

(** The theorem on the sample request with an empty example: the run is
    the run without example, and it calls the template installer once. *)
Lemma empty_example_is_no_example_witness :
  let run :=
    createApp Sample.env (Sample.request (Some EmptyString)) Sample.world in
  run = createApp Sample.env (Sample.request None) Sample.world ∧
  ∃ evs, trace run.2 = trace Sample.world ++ evs ∧
         Forall (λ ev, onExamplePath ev = false) evs ∧
         calls isMaterialize evs = 1.
Proof.
  intros run.
  destruct (empty_example_is_no_example Sample.env (Sample.request None)
              Sample.world)
    as (Hsame & _ & _ & _ & evs & Htrace & Hall & Hcalls).
  split; [exact Hsame|].
  exists evs. split; [exact Htrace|]. split; [exact Hall|].
  rewrite Hcalls. vm_compute. reflexivity.
Defined.

(** X5.  Without an example ([undefined] or the empty string) the run
    makes no call of the example path, installs the template exactly once
    if the target directory could be prepared, and never prints the
    commands to run: [hasPackageJson] stays false on this path, whether or
    not the template wrote a manifest. *)
Theorem template_path (env : Collab.t) (req : Request) (w : World) :
  truthy (example req) = false →
  ∃ evs msgs,
    trace (createApp env req w).2 = trace w ++ evs ∧
    console (createApp env req w).2 = console w ++ msgs ∧
    Forall (λ ev, onExamplePath ev = false) evs ∧
    calls isMaterialize evs =
      match (prepareDirectory env req w).1 with
      | Ret _ => 1
      | _ => 0
      end ∧
    said isInstructions msgs = 0.
Proof. intros Hfalsy. by apply template_run. Qed.

(** The theorem on the request without example, where the template
    writes a manifest. *)
Lemma template_path_witness :
  let env := Scenario.variant None true true None true in
  let run := createApp env (Sample.request None) Sample.world in
  is_Some (fs run.2 !! "/work/my-app/package.json") ∧
  ∃ evs msgs,
    trace run.2 = trace Sample.world ++ evs ∧
    console run.2 = console Sample.world ++ msgs ∧
    Forall (λ ev, onExamplePath ev = false) evs ∧
    calls isMaterialize evs = 1 ∧
    said isInstructions msgs = 0.
Proof.
  intros env run. split; [vm_compute; eauto|].
  destruct (template_path env (Sample.request None) Sample.world eq_refl)
    as (evs & msgs & Ht & Hc & Hall & Hcalls & Hsaid).
  exists evs, msgs. split; [exact Ht|]. split; [exact Hc|].
  split; [exact Hall|]. split; [|exact Hsaid].
  rewrite Hcalls. vm_compute. reflexivity.
Defined.

(** X6.  A target directory that is not empty ends the run with exit code
    1 after the directory has been created: the process has not moved
    into it, nothing was fetched or installed, and [createApp] itself
    prints nothing. *)
Theorem nonempty_target_is_fatal (env : Collab.t) (req : Request)
    (w w1 : World) (repoInfo : option RepoInfo) :
  let root := Collab.path_resolve env (cwd w1) (appPath req) in
  let dir := Collab.path_dirname env root in
  let appName := Collab.path_basename env root in
  let created := Collab.makeDir env root (fs w1) in
  resolveExample env req w = (Ret repoInfo, w1) →
  Collab.isWriteable env dir (fs w1) = true →
  Collab.isFolderEmpty env root appName created = false →
  createApp env req w =
  (Exit 1,
   mkWorld created (cwd w1) (transportCalls w1)
     (trace w1 ++ [EvIsWriteable dir; EvMakeDir root;
                   EvIsFolderEmpty root appName])
     (console w1)).
Proof.
  intros root dir appName created Hres Hw Hempty.
  unfold createApp, bind. rewrite Hres, prepareDirectory_run. simpl.
  fold root dir appName created. by rewrite Hw, Hempty.
Qed.

(** The theorem on a request for [blog] into an occupied directory. *)
Lemma nonempty_target_is_fatal_witness :
  let env := Scenario.variant None true false None true in
  let w1 := mkWorld Sample.disk "/work" 0 [EvExistsInRepo "blog"] [] in
  createApp env (Sample.request (Some "blog")) Sample.world =
  (Exit 1,
   mkWorld (<["/work/my-app" := "<dir>"]> Sample.disk) "/work" 0
     [EvExistsInRepo "blog"; EvIsWriteable "/work"; EvMakeDir "/work/my-app";
      EvIsFolderEmpty "/work/my-app" "my-app"]
     []).
Proof.
  intros env w1.
  apply (nonempty_target_is_fatal env (Sample.request (Some "blog"))
           Sample.world w1 None); reflexivity.
Defined.

Section MorePaths.

Context (env : Collab.t).

Lemma rest_online req repoInfo t :
  isOnline t = isOnlineFor env req →
  produces
    (let! hasPackageJson := cloneOrTemplate env req repoInfo t in
     initAndReport env req t hasPackageJson)
    (Forall (onlineAsComputed env req)).
Proof. intros Hon. only_events; by simpl. Qed.

Lemma resolveExample_online req :
  produces (resolveExample env req) (Forall (onlineAsComputed env req)).
Proof. only_events; by simpl. Qed.

Lemma install_run root pm online w :
  let made := Collab.install env root pm online (fs w) in
  install env root pm online w =
  (match made.2 with
   | Some err => Throw err
   | None => Ret tt
   end,
   mkWorld made.1 (cwd w) (transportCalls w)
     (trace w ++ [EvInstall root pm online]) (console w)).
Proof.
  unfold install, bind, emit, getFs, putFs, settle. simpl.
  by destruct (Collab.install env _ _ _ _) as [disk' [err|]].
Qed.

(** What the resolution of a GitHub URL does, case by case. *)
Lemma resolveExample_github req ex url w :
  example req = Some ex → ex ≠ EmptyString →
  Collab.newURL env ex = inl url →
  origin url = "https://github.com" →
  resolveExample env req w =
  let asked := trace w ++ [EvGetRepoInfo url (examplePath req)] in
  match Collab.getRepoInfo env url (examplePath req) with
  | None =>
      (Exit 1,
       mkWorld (fs w) (cwd w) (transportCalls w) asked
         (console w ++ [MsgInvalidGitHubURL ex]))
  | Some info =>
      if Collab.hasRepo env info
      then (Ret (Some info),
            mkWorld (fs w) (cwd w) (transportCalls w)
              (asked ++ [EvHasRepo info]) (console w))
      else (Exit 1,
            mkWorld (fs w) (cwd w) (transportCalls w)
              (asked ++ [EvHasRepo info])
              (console w ++ [MsgRepoNotFound ex]))
  end.
Proof.
  intros Hex Hne Hurl Horigin. unfold resolveExample.
  rewrite Hex, ifExample_truthy by done. unfold bind. rewrite Hurl. simpl.
  rewrite bool_decide_eq_false_2 by (intros H; by apply H). simpl.
  unfold getRepoInfo, hasRepo, bind, emit, ret. simpl.
  destruct (Collab.getRepoInfo env url (examplePath req)) as [info|];
    [|done].
  simpl. by destruct (Collab.hasRepo env info).
Qed.

(** The kind of the resolved example follows the parse of the string. *)
Lemma resolveExample_kind req ex w repoInfo w1 :
  example req = Some ex → ex ≠ EmptyString →
  resolveExample env req w = (Ret repoInfo, w1) →
  match Collab.newURL env ex with
  | inl _ => is_Some repoInfo
  | inr _ => repoInfo = None
  end.
Proof.
  intros Hex Hne. unfold resolveExample.
  rewrite Hex, ifExample_truthy by done. unfold bind.
  destruct (Collab.newURL env ex) as [url|code]; simpl.
  - destruct (bool_decide (origin url ≠ "https://github.com")); simpl;
      [done|].
    unfold getRepoInfo, hasRepo, bind, emit, ret. simpl.
    destruct (Collab.getRepoInfo env url (examplePath req)) as [info|];
      [|done].
    simpl. destruct (Collab.hasRepo env info); simpl; [|done].
    intros [= <- _]. eauto.
  - destruct (bool_decide (code ≠ "ERR_INVALID_URL")); simpl; [done|].
    destruct (bool_decide (ex ≠ "__internal-testing-retry")); simpl.
    + unfold existsInRepo, bind, emit, ret. simpl.
      destruct (Collab.existsInRepo env ex); simpl; [|done].
      by intros [= <- _].
    + unfold ret. by intros [= <- _].
Qed.

Lemma resolveExample_url_not_named req ex url :
  example req = Some ex → ex ≠ EmptyString →
  Collab.newURL env ex = inl url →
  produces (resolveExample env req) (Forall (λ ev, isNamedCall ev = false)).
Proof.
  intros Hex Hne Hurl w.
  destruct (decide (origin url = "https://github.com")) as [Horigin|Horigin].
  - rewrite (resolveExample_github req ex url w Hex Hne Hurl Horigin). simpl.
    destruct (Collab.getRepoInfo env url (examplePath req)) as [info|];
      [destruct (Collab.hasRepo env info)|]; simpl;
      eexists; (split; [by rewrite <- ?app_assoc|by repeat constructor]).
  - rewrite (resolveExample_foreign_url env req ex url w Hex Hne Hurl Horigin).
    exists []. by rewrite app_nil_r.
Qed.

Lemma resolveExample_name_not_repo req ex code :
  example req = Some ex → ex ≠ EmptyString →
  Collab.newURL env ex = inr code →
  produces (resolveExample env req) (Forall (λ ev, isRepoCall ev = false)).
Proof.
  intros Hex Hne Hurl w.
  destruct (decide (code = "ERR_INVALID_URL")) as [->|Hcode].
  - rewrite (resolveExample_named env req ex w Hex Hne Hurl).
    destruct (decide (ex = "__internal-testing-retry"));
      [exists []; by rewrite app_nil_r|].
    simpl. destruct (Collab.existsInRepo env ex); simpl;
      eexists; (split; [done|by repeat constructor]).
  - rewrite (resolveExample_parse_error env req ex code w Hex Hne Hurl Hcode).
    exists []. by rewrite app_nil_r.
Qed.

(** With a resolved repository, the rest of the run asks nothing of the
    catalog and fetches that repository only. *)
Lemma repo_rest_fetches_repo req info :
  produces
    (let! t := prepareDirectory env req in
     let! hasPackageJson := cloneOrTemplate env req (Some info) t in
     initAndReport env req t hasPackageJson)
    (Forall (λ ev, isNamedCall ev = false ∧
                   ∀ root other, ev = EvDownloadRepo root other → other = info)).
Proof.
  apply only_bind; [only_events|intros t].
  apply only_bind; [|intros h; only_events].
  unfold cloneOrTemplate, fetchExample. only_events.
  split; [done|]. by intros root other [= _ <-].
Qed.

End MorePaths.

(** X7.  The connectivity probe is consulted only when the package manager
    is yarn, and the installer and the template installer are always told
    the value computed on line 131: the probe's answer for yarn, [true]
    for npm and pnpm. *)
Theorem online_probe_is_for_yarn (env : Collab.t) (req : Request) (w : World) :
  ∃ evs, trace (createApp env req w).2 = trace w ++ evs ∧
         Forall (onlineAsComputed env req) evs.
Proof.
  unfold createApp, bind.
  destruct (resolveExample_online env req w) as (e1 & Ht1 & Ha1).
  destruct (resolveExample env req w) as [[repoInfo|c|r|] w1]; simpl in *;
    [|by exists e1..].
  rewrite prepareDirectory_run. simpl.
  assert (Hprobe : Forall (onlineAsComputed env req)
            (if decide (packageManager req = yarn) then [EvGetOnline] else []))
    by (destruct (decide (packageManager req = yarn)); by repeat constructor).
  destruct (Collab.isWriteable env _ (fs w1)); simpl.
  - destruct (Collab.isFolderEmpty env _ _ _); simpl.
    + match goal with
      | |- context [cloneOrTemplate env req repoInfo ?t ?w2] =>
          destruct (rest_online env req repoInfo t eq_refl w2)
            as (e3 & Ht3 & Ha3)
      end.
      unfold bind in Ht3. eexists. rewrite Ht3. simpl trace.
      rewrite Ht1, <- !app_assoc. split; [done|].
      repeat first [done | apply Forall_app_2 | constructor].
    + eexists. rewrite Ht1, <- app_assoc. split; [done|].
      apply Forall_app_2; [done|]. by repeat constructor.
  - eexists. rewrite Ht1, <- app_assoc. split; [done|].
    apply Forall_app_2; [done|]. by repeat constructor.
Qed.

(** X8.  The resolution of the example leaves the disk, the working
    directory and the transport untouched.  When it succeeds it prints
    nothing; when it fails it exits with code 1 after exactly one error
    message. *)
Theorem resolution_reads_only (env : Collab.t) (req : Request) (w : World) :
  let run := resolveExample env req w in
  fs run.2 = fs w ∧ cwd run.2 = cwd w ∧
  transportCalls run.2 = transportCalls w ∧
  (∀ repoInfo, run.1 = Ret repoInfo → console run.2 = console w) ∧
  (∀ code, run.1 = Exit code →
     code = 1%Z ∧ ∃ msg, console run.2 = console w ++ [msg]).
Proof.
  unfold resolveExample, ifExample, getRepoInfo, hasRepo, existsInRepo, bind,
    emit, ret, when, print, process_exit.
  destruct (example req) as [ex|]; [|done].
  destruct (truthy (Some ex)); [|done].
  destruct (Collab.newURL env ex) as [url|code];
    [destruct (bool_decide (origin url ≠ "https://github.com"));
     [|destruct (Collab.getRepoInfo env url (examplePath req)) as [info|];
       [destruct (Collab.hasRepo env info)|]]
    |destruct (bool_decide (code ≠ "ERR_INVALID_URL"));
     [|destruct (bool_decide (ex ≠ "__internal-testing-retry"));
       [destruct (Collab.existsInRepo env ex)|]]];
    simpl;
    (split; [done|]); (split; [done|]); (split; [done|]); (split; [done|]);
    first [done | intros c [= <-]; split; [done|]; by eexists].
Qed.

(** X9.  A failure of the installer on the example path is rethrown as it
    is, not as a [DownloadError]: the run rejects with the installer's own
    error, git is not initialised and no success line is printed. *)
Theorem install_failure_propagates (env : Collab.t) (req : Request)
    (ex : string) (w w1 : World) (repoInfo : option RepoInfo) (t : Target)
    (disk' : Fs) (err : Thrown) :
  example req = Some ex →
  ex ≠ EmptyString →
  reachNormalized env req ex w = (Ret (repoInfo, t), w1) →
  is_Some (fs w1 !! path_join (root t) "package.json") →
  Collab.install env (root t) (packageManager req) (isOnline t) (fs w1) =
    (disk', Some err) →
  createApp env req w =
  (Throw err,
   mkWorld disk' (cwd w1) (transportCalls w1)
     (trace w1 ++ [EvExistsSync (path_join (root t) "package.json");
                   EvInstall (root t) (packageManager req) (isOnline t)])
     (console w1 ++ [MsgInstalling; MsgBlank])).
Proof.
  intros Hex Hne Hreach Hpkg Hinstall.
  rewrite (createApp_via_normalized env req ex w Hex Hne).
  unfold bind. rewrite Hreach. simpl.
  rewrite installPackages_present by done. by rewrite Hinstall.
Qed.

(** The theorem on the example [blog] when the installer fails. *)
Lemma install_failure_propagates_witness :
  let env :=
    Scenario.variant None true true
      (Some (ErrorLike "install failed" "Error: install failed")) true in
  let req := Sample.request (Some "blog") in
  (createApp env req Sample.world).1 =
    Throw (ErrorLike "install failed" "Error: install failed").
Proof.
  intros env req.
  set (w1 := (reachNormalized env req "blog" Sample.world).2).
  rewrite (install_failure_propagates env req "blog" Sample.world w1 None
             Sample.target (fs w1)
             (ErrorLike "install failed" "Error: install failed")
             eq_refl ltac:(discriminate) ltac:(vm_compute; reflexivity)
             ltac:(vm_compute; eauto) eq_refl).
  reflexivity.
Defined.

(** X10.  A GitHub URL whose repository information resolves and exists
    makes the resolution return that information after exactly two calls,
    and every fetch of the run is then a repository fetch of that very
    reference; the catalog of named examples is never consulted. *)
Theorem github_url_is_fetched_as_repo (env : Collab.t) (req : Request)
    (ex : string) (url : URL) (info : RepoInfo) (w : World) :
  example req = Some ex →
  ex ≠ EmptyString →
  Collab.newURL env ex = inl url →
  origin url = "https://github.com" →
  Collab.getRepoInfo env url (examplePath req) = Some info →
  Collab.hasRepo env info = true →
  resolveExample env req w =
    (Ret (Some info),
     mkWorld (fs w) (cwd w) (transportCalls w)
       (trace w ++ [EvGetRepoInfo url (examplePath req); EvHasRepo info])
       (console w)) ∧
  ∃ evs,
    trace (createApp env req w).2 = trace w ++ evs ∧
    Forall (λ ev, isNamedCall ev = false ∧
                  ∀ root other, ev = EvDownloadRepo root other → other = info)
      evs.
Proof.
  intros Hex Hne Hurl Horigin Hinfo Hfound.
  pose proof (resolveExample_github env req ex url w Hex Hne Hurl Horigin)
    as Hres.
  simpl in Hres. rewrite Hinfo, Hfound, <- app_assoc in Hres. simpl in Hres.
  split; [exact Hres|].
  unfold createApp. unfold bind at 1. rewrite Hres.
  match goal with
  | |- context [bind _ _ ?w1] =>
      destruct (repo_rest_fetches_repo env req info w1) as (evs & Ht & Hall)
  end.
  eexists. rewrite Ht. simpl trace. rewrite <- app_assoc.
  split; [done|].
  apply Forall_app_2; [|done]. by repeat constructor.
Qed.

(** The theorem on scenario A of the specification. *)
Lemma github_url_is_fetched_as_repo_witness :
  let req := Sample.request (Some Scenario.githubUrl) in
  ∃ evs,
    trace (createApp Sample.env req Sample.world).2 =
      trace Sample.world ++ evs ∧
    Forall (λ ev, isNamedCall ev = false ∧
                  ∀ root other,
                    ev = EvDownloadRepo root other → other = Sample.acme)
      evs.
Proof.
  intros req.
  apply (proj2 (github_url_is_fetched_as_repo Sample.env req
                  Scenario.githubUrl
                  (mkURL "https://github.com"
                     "/acme/demo/tree/main/examples/foo")
                  Sample.acme Sample.world
                  eq_refl ltac:(discriminate) eq_refl eq_refl eq_refl
                  eq_refl)).
Defined.

(** X11.  A GitHub URL that yields no repository information, or whose
    repository cannot be located, ends the run with exit code 1 during
    the resolution: the existence check is skipped in the first case, and
    in both the disk is untouched and the validation never starts. *)
Theorem unresolved_github_url_is_fatal (env : Collab.t) (req : Request)
    (ex : string) (url : URL) (w : World) :
  example req = Some ex →
  ex ≠ EmptyString →
  Collab.newURL env ex = inl url →
  origin url = "https://github.com" →
  let asked := trace w ++ [EvGetRepoInfo url (examplePath req)] in
  (Collab.getRepoInfo env url (examplePath req) = None →
     createApp env req w =
     (Exit 1,
      mkWorld (fs w) (cwd w) (transportCalls w) asked
        (console w ++ [MsgInvalidGitHubURL ex])))
  ∧
  (∀ info,
     Collab.getRepoInfo env url (examplePath req) = Some info →
     Collab.hasRepo env info = false →
     createApp env req w =
     (Exit 1,
      mkWorld (fs w) (cwd w) (transportCalls w) (asked ++ [EvHasRepo info])
        (console w ++ [MsgRepoNotFound ex]))).
Proof.
  intros Hex Hne Hurl Horigin asked.
  pose proof (resolveExample_github env req ex url w Hex Hne Hurl Horigin)
    as Hres.
  simpl in Hres. fold asked in Hres. split.
  - intros Hinfo. rewrite Hinfo in Hres.
    by apply createApp_exits_in_resolution.
  - intros info Hinfo Hfound. rewrite Hinfo, Hfound in Hres.
    by apply createApp_exits_in_resolution.
Qed.

(** The theorem on a GitHub URL without repository information, and on
    one whose repository is not found. *)
Lemma unresolved_github_url_is_fatal_witness :
  let req := Sample.request (Some Scenario.githubUrl) in
  let url := mkURL "https://github.com" "/acme/demo/tree/main/examples/foo" in
  createApp (Scenario.variant None true true None true) req Sample.world =
    (Exit 1,
     mkWorld Sample.disk "/work" 0 [EvGetRepoInfo url None]
       [MsgInvalidGitHubURL Scenario.githubUrl]) ∧
  createApp (Scenario.variant (Some Sample.acme) false true None true) req
    Sample.world =
    (Exit 1,
     mkWorld Sample.disk "/work" 0
       [EvGetRepoInfo url None; EvHasRepo Sample.acme]
       [MsgRepoNotFound Scenario.githubUrl]).
Proof.
  intros req url. split.
  - apply (proj1 (unresolved_github_url_is_fatal
                    (Scenario.variant None true true None true) req
                    Scenario.githubUrl url Sample.world
                    eq_refl ltac:(discriminate) eq_refl eq_refl)).
    reflexivity.
  - apply (proj2 (unresolved_github_url_is_fatal
                    (Scenario.variant (Some Sample.acme) false true None true)
                    req Scenario.githubUrl url Sample.world
                    eq_refl ltac:(discriminate) eq_refl eq_refl)
             Sample.acme); reflexivity.
Defined.

(** X12.  No run mixes the two kinds of example: either it makes no call
    that concerns a repository, or it makes no call that concerns a named
    example of the catalog. *)
Theorem repo_and_named_are_exclusive (env : Collab.t) (req : Request)
    (w : World) :
  ∃ evs,
    trace (createApp env req w).2 = trace w ++ evs ∧
    (Forall (λ ev, isRepoCall ev = false) evs ∨
     Forall (λ ev, isNamedCall ev = false) evs).
Proof.
  destruct (example req) as [ex|] eqn:Hex;
    [destruct (decide (ex = EmptyString)) as [->|Hne]|].
  - assert (H : produces (createApp env req)
                  (Forall (λ ev, isRepoCall ev = false))).
    { unfold createApp, resolveExample, cloneOrTemplate. rewrite Hex.
      unfold ifExample. rewrite truthy_empty. only_events. }
    destruct (H w) as (evs & Ht & Hall). exists evs. auto.
  - unfold createApp. unfold bind at 1.
    destruct (Collab.newURL env ex) as [url|code] eqn:Hurl.
    + destruct (resolveExample_url_not_named env req ex url Hex Hne Hurl w)
        as (e1 & Ht1 & Ha1).
      pose proof (resolveExample_kind env req ex w) as Hkind.
      destruct (resolveExample env req w) as [[repoInfo|c|r|] w1];
        simpl in *; [|exists e1; auto..].
      specialize (Hkind repoInfo w1 Hex Hne eq_refl). rewrite Hurl in Hkind.
      destruct Hkind as [info ->].
      destruct (repo_rest_fetches_repo env req info w1) as (e2 & Ht2 & Ha2).
      exists (e1 ++ e2). rewrite Ht2, Ht1, <- app_assoc. split; [done|].
      right. apply Forall_app_2; [done|].
      eapply Forall_impl; [exact Ha2|]. by intros ev [? _].
    + destruct (resolveExample_name_not_repo env req ex code Hex Hne Hurl w)
        as (e1 & Ht1 & Ha1).
      pose proof (resolveExample_kind env req ex w) as Hkind.
      destruct (resolveExample env req w) as [[repoInfo|c|r|] w1];
        simpl in *; [|exists e1; auto..].
      specialize (Hkind repoInfo w1 Hex Hne eq_refl). rewrite Hurl in Hkind.
      subst repoInfo.
      destruct (named_rest_makes_no_repo_call env req w1) as (e2 & Ht2 & Ha2).
      exists (e1 ++ e2). rewrite Ht2, Ht1, <- app_assoc. split; [done|].
      left. by apply Forall_app_2.
  - assert (H : produces (createApp env req)
                  (Forall (λ ev, isRepoCall ev = false))).
    { unfold createApp, resolveExample, cloneOrTemplate. rewrite Hex.
      unfold ifExample. only_events. }
    destruct (H w) as (evs & Ht & Hall). exists evs. auto.
Qed.

Section Installing.

Context (env : Collab.t).

Lemma installsNothing_zero evs :
  Forall installsNothing evs →
  calls isInstall evs = 0 ∧ calls isMaterialize evs = 0.
Proof.
  intros H. split; apply calls_none;
    (eapply Forall_impl; [exact H|]); by intros ev [? ?].
Qed.

Lemma installs_after_nothing {A B} (m : M A) (f : A → M B) :
  produces m (Forall installsNothing) →
  (∀ a, produces (f a) installsAtMostOnce) →
  produces (bind m f) installsAtMostOnce.
Proof.
  intros Hm Hf.
  apply (produces_bind m f (Forall installsNothing) installsAtMostOnce);
    [done|done| |].
  - intros e1 H1. destruct (installsNothing_zero e1 H1) as [Hi Hm'].
    unfold installsAtMostOnce. lia.
  - intros e1 e2 H1 H2. destruct (installsNothing_zero e1 H1) as [Hi Hm'].
    unfold installsAtMostOnce in *. rewrite !calls_app. lia.
Qed.

Lemma installs_before_nothing {A B} (m : M A) (f : A → M B) :
  produces m installsAtMostOnce →
  (∀ a, produces (f a) (Forall installsNothing)) →
  produces (bind m f) installsAtMostOnce.
Proof.
  intros Hm Hf.
  apply (produces_bind m f installsAtMostOnce (Forall installsNothing));
    [done|done|done|].
  intros e1 e2 H1 H2. destruct (installsNothing_zero e2 H2) as [Hi Hm'].
  unfold installsAtMostOnce in *. rewrite !calls_app. lia.
Qed.

Lemma install_once root pm online :
  produces (install env root pm online) installsAtMostOnce.
Proof.
  intros w. rewrite install_run. simpl. eexists. split; [done|].
  unfold installsAtMostOnce, calls. simpl. lia.
Qed.

Lemma installTemplate_once appName root template mode pm online :
  produces (installTemplate env appName root template mode pm online)
    installsAtMostOnce.
Proof.
  intros w. rewrite installTemplate_run. simpl. eexists. split; [done|].
  unfold installsAtMostOnce, calls. simpl. lia.
Qed.

Lemma nothing_at_most_once {A} (m : M A) :
  produces m (Forall installsNothing) → produces m installsAtMostOnce.
Proof.
  intros Hm. apply (produces_mono _ _ _ Hm). intros evs H.
  destruct (installsNothing_zero evs H). unfold installsAtMostOnce. lia.
Qed.

Lemma cloneOrTemplate_installs_once req repoInfo t :
  produces (cloneOrTemplate env req repoInfo t) installsAtMostOnce.
Proof.
  unfold cloneOrTemplate, ifExample.
  assert (Htemplate :
    produces
      (installTemplate env (appName t) (root t)
         (if experimentalApp req then tpl_app else tpl_default)
         (if typescript req then ts else js) (packageManager req) (isOnline t) >>
       ret false) installsAtMostOnce).
  { apply installs_before_nothing; [apply installTemplate_once|].
    intros _. by apply only_ret. }
  destruct (example req) as [ex|]; [destruct (truthy (Some ex))|]; try done.
  apply installs_after_nothing; [by only_events|intros _].
  apply installs_after_nothing; [by only_events|intros _].
  apply installs_after_nothing; [by only_events|intros _].
  unfold installPackages.
  apply installs_after_nothing; [by only_events|intros hasPackageJson].
  apply installs_before_nothing; [|intros _; by apply only_ret].
  destruct hasPackageJson; unfold when;
    [|apply nothing_at_most_once; by apply only_ret].
  apply installs_after_nothing; [by only_events|intros _].
  apply installs_after_nothing; [by only_events|intros _].
  apply installs_before_nothing; [apply install_once|].
  intros _. by only_events.
Qed.

(** The fetch function that fails [k] times and then succeeds is settled
    by the [k+1]-th call, if the retries allow that many. *)
Lemma attempt_first_success root ex repoInfo k :
  ∀ timeouts errors w,
    k ≤ timeouts →
    failsFrom env root ex repoInfo (transportCalls w) k →
    succeedsAt env root ex repoInfo (transportCalls w + k) →
    attempt (fetchFn env root ex repoInfo) timeouts errors w =
    (Ret tt, Nat.iter (S k) (afterFetch env root ex repoInfo) w).
Proof.
  induction k as [|k IH]; intros timeouts errors w Hk Hfail Hok.
  - rewrite Nat.add_0_r in Hok.
    by apply attempt_settled, fetchFn_succeeds.
  - destruct (Hfail 0) as (err & Hretriable & Herr); [lia|].
    rewrite Nat.add_0_r in Herr.
    destruct timeouts as [|timeouts]; [lia|].
    rewrite (attempt_again _ _ _ _ _ _ (fetchFn_fails env _ _ _ _ _ Herr))
      by done.
    rewrite IH.
    + by rewrite <- Nat.iter_succ_r.
    + lia.
    + intros i Hi. destruct (Hfail (S i)) as (e & Hr & He); [lia|].
      exists e. split; [done|]. simpl. by rewrite <- Nat.add_succ_r.
    + simpl. by rewrite <- Nat.add_succ_r.
Qed.

End Installing.

(** X13.  In every run at most one call installs dependencies: the
    installer of the example path and the template installer are never
    both called, and neither is called twice. *)
Theorem dependencies_installed_at_most_once (env : Collab.t) (req : Request)
    (w : World) :
  ∃ evs, trace (createApp env req w).2 = trace w ++ evs ∧
         calls isInstall evs + calls isMaterialize evs ≤ 1.
Proof.
  assert (H : produces (createApp env req) installsAtMostOnce).
  { unfold createApp.
    apply installs_after_nothing; [by only_events|intros repoInfo].
    apply installs_after_nothing; [by only_events|intros t].
    apply installs_before_nothing;
      [apply cloneOrTemplate_installs_once|intros h; by only_events]. }
  apply H.
Qed.

(** X14.  A fetch whose transport fails [k] times in a row, with [k] at
    most 3, each time with a failure that the retry package retries (a
    truthy value without a truthy [bail] property), and then succeeds,
    succeeds after exactly [k + 1] transport calls; in particular a fetch
    that succeeds at once is not repeated. *)
Theorem fetch_stops_at_first_success (env : Collab.t) (root ex : string)
    (repoInfo : option RepoInfo) (w : World) (k : nat) :
  k ≤ 3 →
  failsFrom env root ex repoInfo (transportCalls w) k →
  succeedsAt env root ex repoInfo (transportCalls w + k) →
  ∃ w', fetchExample env root ex repoInfo w = (Ret tt, w') ∧
        transportCalls w' = transportCalls w + k + 1 ∧
        trace w' = trace w ++ replicate (k + 1) (fetchEvent root ex repoInfo).
Proof.
  intros Hk Hfail Hok.
  exists (Nat.iter (S k) (afterFetch env root ex repoInfo)
            (announced ex repoInfo w)).
  rewrite fetchExample_run. unfold retry.
  rewrite (attempt_first_success env root ex repoInfo k) by done.
  split; [done|].
  rewrite transportCalls_iter, trace_iter. simpl transportCalls. simpl trace.
  split; [lia|]. by rewrite Nat.add_1_r.
Qed.

(** The theorem on the example [blog], whose transport times out twice
    and delivers at the third call. *)
Lemma fetch_stops_at_first_success_witness :
  ∃ w', fetchExample Sample.env "/work/my-app" "blog" None Sample.prepared =
          (Ret tt, w') ∧
        transportCalls w' = 3 ∧
        trace w' =
          trace Sample.prepared ++
          replicate 3 (EvDownloadExample "/work/my-app" "blog").
Proof.
  apply (fetch_stops_at_first_success Sample.env "/work/my-app" "blog" None
           Sample.prepared 2).
  - lia.
  - intros i Hi. exists (ErrorLike "timeout" "Error: timeout").
    split; [reflexivity|]. intros disk.
    destruct i as [|[|i]]; [reflexivity|reflexivity|lia].
  - intros disk. reflexivity.
Defined.

(** X15.  Nothing is undone between the attempts of a fetch or after the
    last one: the world after the fetch is the announced world taken
    through one to four transport calls in a row, each call starting from
    the disk that the call before it left. *)
Theorem fetch_keeps_what_attempts_wrote (env : Collab.t) (root ex : string)
    (repoInfo : option RepoInfo) (w : World) :
  ∃ k, 1 ≤ k ≤ 4 ∧
       (fetchExample env root ex repoInfo w).2 =
       Nat.iter k (afterFetch env root ex repoInfo) (announced ex repoInfo w).
Proof.
  destruct (attempt_fetch_bound env root ex repoInfo 3 []
              (announced ex repoInfo w)) as (k & Hk & Hrun).
  exists k. split; [done|]. by rewrite fetchExample_world.
Qed.

(** X16.  A failure that the retry package does not retry ends the fetch
    after the transport call that produced it.  When the first call fails
    with a value that has a truthy [bail] property, the [DownloadError]
    carries the message or the coercion of that value; when it fails with a
    falsy value other than [null] and [undefined], nothing was recorded and
    the [DownloadError] carries the text [null]. *)
Theorem unretried_failure_ends_fetch (env : Collab.t) (root ex : string)
    (repoInfo : option RepoInfo) (w : World) (err : Thrown) :
  failsAt env root ex repoInfo (transportCalls w) err →
  retriable err = false →
  isNullish err = false →
  fetchExample env root ex repoInfo w =
  (Throw (DownloadError (if hasBail err then downloadMessage err else "null")),
   afterFetch env root ex repoInfo (announced ex repoInfo w)).
Proof.
  intros Hfail Hretriable Hnullish.
  assert (Hcall : fetchFn env root ex repoInfo (announced ex repoInfo w) =
                  (Throw err,
                   afterFetch env root ex repoInfo (announced ex repoInfo w)))
    by (by apply fetchFn_fails).
  rewrite fetchExample_run. unfold retry.
  rewrite (attempt_ends _ _ _ _ _ _ Hcall Hretriable), Hnullish.
  by destruct (hasBail err).
Qed.

(** The theorem on a transport that asks not to be retried, and on one
    that rejects with [0]. *)
Lemma unretried_failure_ends_fetch_witness :
  (∃ w', fetchExample
           (Scenario.failingWith (Bailing (Some "stop") "Error: stop"))
           "/work/my-app" "blog" None Sample.prepared =
           (Throw (DownloadError "stop"), w') ∧
         transportCalls w' = 1) ∧
  (∃ w', fetchExample (Scenario.failingWith (Falsy "0"))
           "/work/my-app" "blog" None Sample.prepared =
           (Throw (DownloadError "null"), w') ∧
         transportCalls w' = 1).
Proof.
  split.
  - exists (afterFetch
              (Scenario.failingWith (Bailing (Some "stop") "Error: stop"))
              "/work/my-app" "blog" None
              (announced "blog" None Sample.prepared)).
    split; [|reflexivity].
    apply (unretried_failure_ends_fetch
             (Scenario.failingWith (Bailing (Some "stop") "Error: stop"))
             "/work/my-app" "blog" None Sample.prepared
             (Bailing (Some "stop") "Error: stop"));
      [intros disk; reflexivity|reflexivity|reflexivity].
  - exists (afterFetch (Scenario.failingWith (Falsy "0"))
              "/work/my-app" "blog" None
              (announced "blog" None Sample.prepared)).
    split; [|reflexivity].
    apply (unretried_failure_ends_fetch (Scenario.failingWith (Falsy "0"))
             "/work/my-app" "blog" None Sample.prepared (Falsy "0"));
      [intros disk; reflexivity|reflexivity|reflexivity].
Defined.
